(** * Farm monitoring dashboard: the aggregation, join and filter pipeline

    A shallow embedding of [streamlit_farm_dashboard4.py].  A pandas
    DataFrame is a list of row records, in row order; a nullable cell
    (NaN, NaT, None) is an [option].  Numbers are rationals: the
    pipeline only adds, divides by a count and compares them.  The
    rounding of the float64 arithmetic is not modelled; what is
    proved about a mean is its value where floats are exact, and when
    it is null.

    The two input tables are taken as pandas holds them once the cells
    have been coerced ([pd.to_datetime] and [pd.to_numeric] with
    [errors='coerce'], [astype(str).str.strip()]): a cell that did not
    parse is [None].  Everything after that, starting with the
    [dropna] of line 20, is modelled. *)

From Stdlib Require Import List String Ascii ZArith QArith Qreduction Bool Lia Permutation.
From Stdlib Require Import Sorted DecimalString.
Import ListNotations.

Local Open Scope string_scope.
Local Open Scope Z_scope.
Local Open Scope list_scope.

(** ** Dates *)

Record Date := mkDate { year : Z; month : Z; day : Z }.

Definition date_compare (a b : Date) : comparison :=
  match year a ?= year b with
  | Eq => match month a ?= month b with
          | Eq => day a ?= day b
          | c => c
          end
  | c => c
  end.

Definition date_eqb (a b : Date) : bool :=
  match date_compare a b with Eq => true | _ => false end.

Definition date_leb (a b : Date) : bool :=
  match date_compare a b with Gt => false | _ => true end.

Definition date_max (a b : Date) : Date := if date_leb a b then b else a.

(** ** Columns (pandas Series) and their reductions

    Every reduction used by the script skips nulls, as pandas does by
    default. *)

Definition notna {A} (c : option A) : bool :=
  match c with Some _ => true | None => false end.

Fixpoint dropna {A} (s : list (option A)) : list A :=
  match s with
  | [] => []
  | Some v :: t => v :: dropna t
  | None :: t => dropna t
  end.

Definition series_sum (v : list Q) : Q := fold_left Qplus v 0%Q.

(** [Series.mean()]: mean of the non-null values, NaN when there are none. *)
Definition series_mean (s : list (option Q)) : option Q :=
  match dropna s with
  | [] => None
  | v => Some (Qred (series_sum v / inject_Z (Z.of_nat (List.length v))))
  end.

(** [GroupBy.last()]: the last non-null value, null when there is none. *)
Definition series_last {A} (s : list (option A)) : option A :=
  last (map Some (dropna s)) None.

(** [max] of a datetime column. *)
Definition series_max (s : list (option Date)) : option Date :=
  match dropna s with
  | [] => None
  | d :: ds => Some (fold_left date_max ds d)
  end.

(** [count]: the number of non-null cells. *)
Definition series_count {A} (s : list (option A)) : Z :=
  Z.of_nat (List.length (dropna s)).

(** [Series.unique()]: distinct values in order of first appearance. *)
Fixpoint unique {A} (eqb : A -> A -> bool) (l : list A) : list A :=
  match l with
  | [] => []
  | x :: t => x :: filter (fun y => negb (eqb y x)) (unique eqb t)
  end.

(** Ascending sort, used for group keys and for the modes. *)
Fixpoint insert_sorted {A} (leb : A -> A -> bool) (x : A) (l : list A) : list A :=
  match l with
  | [] => [x]
  | y :: t => if leb x y then x :: y :: t else y :: insert_sorted leb x t
  end.

Fixpoint sort {A} (leb : A -> A -> bool) (l : list A) : list A :=
  match l with
  | [] => []
  | x :: t => insert_sorted leb x (sort leb t)
  end.

Definition count_occ_by {A} (eqb : A -> A -> bool) (x : A) (l : list A) : nat :=
  List.length (filter (eqb x) l).

Definition max_count {A} (eqb : A -> A -> bool) (l : list A) : nat :=
  fold_right Nat.max 0%nat (map (fun x => count_occ_by eqb x l) l).

(** [Series.mode()]: the most frequent non-null values, in ascending order. *)
Definition series_mode (s : list (option string)) : list string :=
  let v := dropna s in
  sort String.leb
       (filter (fun x => Nat.eqb (count_occ_by String.eqb x v) (max_count String.eqb v))
               (unique String.eqb v)).

(** ** The observation table (monitoring_data.csv) *)

Module Obs.
Record row := mk {
  Crop_id : string;
  date_observed : option Date;
  height_cm : option Q;
  stage : option string;
  crop_health : option string;
  fid : option Z
}.
End Obs.

(** Line 20: [monitoring_df.dropna(subset=['date_observed'])]. *)
Definition monitoring_df (raw : list Obs.row) : list Obs.row :=
  filter (fun r => notna (Obs.date_observed r)) raw.

(** ** The aggregator (lines 36-42) *)

Module Agg.
Record row := mk {
  Crop_id : string;
  avg_height : option Q;
  last_stage : option string;
  last_crop_health : option string;
  last_observed : option Date;
  observations_count : Z
}.
End Agg.

(** [groupby('Crop_id')]: one group per distinct key, keys ascending,
    rows of a group in table order. *)
Definition groupby_Crop_id (df : list Obs.row) : list (string * list Obs.row) :=
  map (fun k => (k, filter (fun r => String.eqb (Obs.Crop_id r) k) df))
      (sort String.leb (unique String.eqb (map Obs.Crop_id df))).

Definition agg_group (kg : string * list Obs.row) : Agg.row :=
  let (k, g) := kg in
  {| Agg.Crop_id := k;
     Agg.avg_height := series_mean (map Obs.height_cm g);
     Agg.last_stage := series_last (map Obs.stage g);
     Agg.last_crop_health := series_last (map Obs.crop_health g);
     Agg.last_observed := series_max (map Obs.date_observed g);
     Agg.observations_count := series_count (map Obs.fid g) |}.

Definition agg_monitoring (df : list Obs.row) : list Agg.row :=
  map agg_group (groupby_Crop_id df).

(** ** The planting centroids (planting_centroids.geojson) *)

(** A point of the map; a coordinate of an empty or missing geometry is NaN. *)
Record Point := mkPoint { x : option Q; y : option Q }.

Module Planting.
Record row {Geometry : Type} := mk {
  id : string;
  Plant_date : option Date;
  Row_ID : option string;
  Block_ID : option string;
  Crop_Class : option string;
  Crop_Varie : option string;
  geometry : Geometry
}.
Arguments row : clear implicits.
Arguments mk {Geometry}.
End Planting.

(** ** The merged table (lines 47-64) *)

Module Merged.
Record row {Geometry : Type} := mk {
  id : string;
  Plant_date : option Date;
  Plot_ID : option string;
  Block_ID : option string;
  Crop_Class : option string;
  Crop_Varie : option string;
  geometry : Geometry;
  Crop_id : option string;
  avg_height : option Q;
  last_stage : option string;
  last_crop_health : option string;
  last_observed : option Date;
  observations_count : option Z
}.
Arguments row : clear implicits.
Arguments mk {Geometry}.
End Merged.

(** ** The Progress view's per-date table (lines 176-179) *)

Module Progress.
Record row := mk {
  date_observed : Date;
  avg_height : option Q;
  avg_crop_health : string
}.
End Progress.

(** What the Progress page does for a selected plot: [.values[0]] on an
    empty selection raises, an empty history shows the warning, anything
    else is charted from [progress_agg]. *)
Inductive progress_page :=
| RaisesIndexError
| Warning (msg : string)
| Chart (progress_agg : list Progress.row).

(** [column == value] on a nullable string column: a null cell is not equal. *)
Definition col_eq (c : option string) (v : string) : bool :=
  match c with
  | Some s => String.eqb s v
  | None => false
  end.

(** [str(date)]: ISO format, for the years 1 to 9999 a [datetime.date] can hold. *)
Definition digit (n : Z) : string :=
  String (ascii_of_N (48 + Z.to_N (n mod 10))) EmptyString.

Fixpoint zero_padded (width : nat) (n : Z) : string :=
  match width with
  | O => EmptyString
  | S w => String.append (zero_padded w (n / 10)) (digit n)
  end.

Definition date_str (d : Date) : string :=
  String.append (zero_padded 4 (year d))
    (String.append "-" (String.append (zero_padded 2 (month d))
       (String.append "-" (zero_padded 2 (day d))))).

Section Dashboard.

Variable Geometry : Type.

(** [GeoSeries.centroid], computed by the geometry library. *)
Variable geom_centroid : Geometry -> Point.

(** One output row of the left join (lines 47-52), with the rename of
    line 54: the right-hand columns are null when nothing matched. *)
Definition join_row (l : Planting.row Geometry) (r : option Agg.row)
  : Merged.row Geometry :=
  {| Merged.id := Planting.id l;
     Merged.Plant_date := Planting.Plant_date l;
     Merged.Plot_ID := Planting.Row_ID l;
     Merged.Block_ID := Planting.Block_ID l;
     Merged.Crop_Class := Planting.Crop_Class l;
     Merged.Crop_Varie := Planting.Crop_Varie l;
     Merged.geometry := Planting.geometry l;
     Merged.Crop_id := option_map Agg.Crop_id r;
     Merged.avg_height := match r with Some a => Agg.avg_height a | None => None end;
     Merged.last_stage := match r with Some a => Agg.last_stage a | None => None end;
     Merged.last_crop_health :=
       match r with Some a => Agg.last_crop_health a | None => None end;
     Merged.last_observed := match r with Some a => Agg.last_observed a | None => None end;
     Merged.observations_count := option_map Agg.observations_count r |}.

(** [left.merge(right, left_on='id', right_on='Crop_id', how='left')]:
    left rows in order, one output row per matching right row, and
    one with null right-hand columns when none matches. *)
Definition merge_left (left : list (Planting.row Geometry)) (right : list Agg.row)
  : list (Merged.row Geometry) :=
  flat_map
    (fun l =>
       match filter (fun a => String.eqb (Planting.id l) (Agg.Crop_id a)) right with
       | [] => [join_row l None]
       | matches => map (fun a => join_row l (Some a)) matches
       end)
    left.

Definition fill {A} (c : option A) (default : A) : option A :=
  match c with
  | Some v => Some v
  | None => Some default
  end.

(** Lines 56-61: [fillna] on four columns. *)
Definition fillna (r : Merged.row Geometry) : Merged.row Geometry :=
  {| Merged.id := Merged.id r;
     Merged.Plant_date := Merged.Plant_date r;
     Merged.Plot_ID := Merged.Plot_ID r;
     Merged.Block_ID := Merged.Block_ID r;
     Merged.Crop_Class := Merged.Crop_Class r;
     Merged.Crop_Varie := Merged.Crop_Varie r;
     Merged.geometry := Merged.geometry r;
     Merged.Crop_id := Merged.Crop_id r;
     Merged.avg_height := fill (Merged.avg_height r) 0%Q;
     Merged.last_stage := fill (Merged.last_stage r) "N/A";
     Merged.last_crop_health := fill (Merged.last_crop_health r) "N/A";
     Merged.last_observed := Merged.last_observed r;
     Merged.observations_count := fill (Merged.observations_count r) 0 |}.

(** [merged_gdf] as the pages see it, from the two loaded tables. *)
Definition merged_gdf (planting_centroids : list (Planting.row Geometry))
           (raw : list Obs.row) : list (Merged.row Geometry) :=
  map fillna (merge_left planting_centroids (agg_monitoring (monitoring_df raw))).

(** Line 64: the [centroid] column, a function of the row's geometry. *)
Definition centroid (r : Merged.row Geometry) : Point :=
  geom_centroid (Merged.geometry r).

(** *** The filter cascade (lines 73-92) *)

Definition crop_classes (merged : list (Merged.row Geometry)) : list string :=
  unique String.eqb (dropna (map Merged.Crop_Class merged)).

Definition filter_crop_class (selected_crop : string)
           (filtered : list (Merged.row Geometry)) :=
  if negb (String.eqb selected_crop "All")
  then filter (fun r => col_eq (Merged.Crop_Class r) selected_crop) filtered
  else filtered.

Definition crop_varieties (merged : list (Merged.row Geometry))
           (selected_crop : string) : list string :=
  if String.eqb selected_crop "All"
  then unique String.eqb (dropna (map Merged.Crop_Varie merged))
  else unique String.eqb
         (dropna (map Merged.Crop_Varie
                      (filter (fun r => col_eq (Merged.Crop_Class r) selected_crop) merged))).

Definition filter_crop_variety (selected_variety : string)
           (filtered : list (Merged.row Geometry)) :=
  if negb (String.eqb selected_variety "All")
  then filter (fun r => col_eq (Merged.Crop_Varie r) selected_variety) filtered
  else filtered.

Definition stages (filtered : list (Merged.row Geometry)) : list string :=
  unique String.eqb (dropna (map Merged.last_stage filtered)).

Definition filter_stage (selected_stage : string)
           (filtered : list (Merged.row Geometry)) :=
  if negb (String.eqb selected_stage "All")
  then filter (fun r => col_eq (Merged.last_stage r) selected_stage) filtered
  else filtered.

Definition filtered_gdf (merged : list (Merged.row Geometry))
           (selected_crop selected_variety selected_stage : string) :=
  filter_stage selected_stage
    (filter_crop_variety selected_variety
       (filter_crop_class selected_crop merged)).

(** *** The Map view (lines 100-103, 127-153) *)

Definition farm_center (filtered : list (Merged.row Geometry)) : list (option Q) :=
  match filtered with
  | _ :: _ => [series_mean (map (fun r => y (centroid r)) filtered);
               series_mean (map (fun r => x (centroid r)) filtered)]
  | [] => [Some 0%Q; Some 0%Q]
  end.

(** Line 141, the value interpolated after "Date Observed:". *)
Definition popup_date_observed (row : Merged.row Geometry) : string :=
  if notna (Merged.last_observed row)
  then match Merged.last_observed row with
       | Some d => date_str d
       | None => EmptyString
       end
  else "N/A".

Definition popup_date_observed_line (row : Merged.row Geometry) : string :=
  String.append "<strong>Date Observed:</strong> "
                (String.append (popup_date_observed row) "<br>").

(** Lines 127-153, one marker per filtered row: its position and the
    popup's date line.  A row whose centroid lacks a latitude or a
    longitude gets no marker: reading a coordinate of a missing
    centroid (line 128) or placing a marker at NaN (line 146) raises,
    and the page stops there ([None]). *)
Definition marker (row : Merged.row Geometry) : option (Q * Q * string) :=
  match y (centroid row), x (centroid row) with
  | Some lat, Some lon => Some (lat, lon, popup_date_observed_line row)
  | _, _ => None
  end.

Fixpoint markers (filtered : list (Merged.row Geometry))
  : option (list (Q * Q * string)) :=
  match filtered with
  | [] => Some []
  | row :: rest =>
      match marker row with
      | Some mk => option_map (cons mk) (markers rest)
      | None => None
      end
  end.

(** *** The Progress view (lines 167-179) *)

Definition plot_ids (merged : list (Merged.row Geometry)) : list string :=
  unique String.eqb (dropna (map Merged.Plot_ID merged)).

(** Line 178: [x.mode()[0] if not x.mode().empty else 'N/A']. *)
Definition modal_health (x : list (option string)) : string :=
  match series_mode x with
  | m :: _ => m
  | [] => "N/A"
  end.

Definition groupby_date_observed (df : list Obs.row) : list (Date * list Obs.row) :=
  map (fun k => (k, filter (fun r => match Obs.date_observed r with
                                     | Some d => date_eqb d k
                                     | None => false
                                     end) df))
      (sort date_leb (unique date_eqb (dropna (map Obs.date_observed df)))).

Definition progress_agg (progress_df : list Obs.row) : list Progress.row :=
  map (fun kg : Date * list Obs.row =>
         let (k, g) := kg in
         {| Progress.date_observed := k;
            Progress.avg_height := series_mean (map Obs.height_cm g);
            Progress.avg_crop_health := modal_health (map Obs.crop_health g) |})
      (groupby_date_observed progress_df).

Definition check_progress (merged : list (Merged.row Geometry))
           (monitoring : list Obs.row) (selected_plot : string) : progress_page :=
  match map Merged.id (filter (fun r => col_eq (Merged.Plot_ID r) selected_plot) merged) with
  | [] => RaisesIndexError
  | crop_id :: _ =>
      let progress_df := filter (fun r => String.eqb (Obs.Crop_id r) crop_id) monitoring in
      match progress_df with
      | _ :: _ => Chart (progress_agg progress_df)
      | [] => Warning "No monitoring data available for this Plot ID."
      end
  end.

End Dashboard.

Arguments join_row {Geometry}.
Arguments merge_left {Geometry}.
Arguments fillna {Geometry}.
Arguments merged_gdf {Geometry}.
Arguments centroid {Geometry}.
Arguments crop_classes {Geometry}.
Arguments crop_varieties {Geometry}.
Arguments stages {Geometry}.
Arguments filter_crop_class {Geometry}.
Arguments filter_crop_variety {Geometry}.
Arguments filter_stage {Geometry}.
Arguments filtered_gdf {Geometry}.
Arguments farm_center {Geometry}.
Arguments popup_date_observed {Geometry}.
Arguments popup_date_observed_line {Geometry}.
Arguments marker {Geometry}.
Arguments markers {Geometry}.
Arguments plot_ids {Geometry}.
Arguments check_progress {Geometry}.

(** ** Notions used to state the properties *)

(** The centroid row a merged row was built from: its left-hand columns. *)
Definition planting_of {Geometry} (m : Merged.row Geometry) : Planting.row Geometry :=
  {| Planting.id := Merged.id m;
     Planting.Plant_date := Merged.Plant_date m;
     Planting.Row_ID := Merged.Plot_ID m;
     Planting.Block_ID := Merged.Block_ID m;
     Planting.Crop_Class := Merged.Crop_Class m;
     Planting.Crop_Varie := Merged.Crop_Varie m;
     Planting.geometry := Merged.geometry m |}.

(** The rows of one crop, and the rows of one date. *)
Definition rows_of_crop (k : string) (df : list Obs.row) : list Obs.row :=
  filter (fun r => String.eqb (Obs.Crop_id r) k) df.

Definition rows_of_date (d : Date) (df : list Obs.row) : list Obs.row :=
  filter (fun r => match Obs.date_observed r with
                   | Some d' => date_eqb d' d
                   | None => false
                   end) df.

(** The tie-break as the specification words it: among the most
    frequent labels, the one met first in row order. *)
Definition first_encountered_mode (s : list (option string)) : option string :=
  let v := dropna s in
  hd_error (filter (fun l => Nat.eqb (count_occ_by String.eqb l v) (max_count String.eqb v)) v).

(** Line 142, the value interpolated after "Observations:":
    [int(row['observations_count'])], which raises on NaN ([None] here). *)
Definition popup_observations {Geometry} (row : Merged.row Geometry) : option string :=
  option_map (fun n => NilZero.string_of_int (Z.to_int n)) (Merged.observations_count row).

(** The dates a [datetime.date] can hold, up to the length of the months. *)
Definition date_in_range (d : Date) : Prop :=
  1 <= year d <= 9999 /\ 1 <= month d <= 12 /\ 1 <= day d <= 31.

(** Ascending order of a list under a boolean comparison. *)
Definition ascending {A} (leb : A -> A -> bool) (l : list A) : Prop :=
  StronglySorted (fun a b => leb a b = true) l.

(** The first merged row carrying a plot id, the one line 171 resolves. *)
Definition first_plot_row {Geometry} (merged : list (Merged.row Geometry))
           (selected_plot : string) : option (Merged.row Geometry) :=
  find (fun r => col_eq (Merged.Plot_ID r) selected_plot) merged.

(** Whether a cell passes a selection: the selection is "All" or the
    cell holds the selected value. *)
Definition passes (selected : string) (c : option string) : bool :=
  String.eqb selected "All" || col_eq c selected.

(** ** Sample tables

    A small farm used to run the pipeline: crop "1" has an observation
    with an unparsable date and one without fid, crop "2" has no valid
    height, and plot "99" has no observation at all.  Geometries are
    points, given by their coordinates. *)

Definition jan05 : Date := mkDate 2024 1 5.
Definition jan10 : Date := mkDate 2024 1 10.

Definition sample_raw : list Obs.row :=
  [Obs.mk "1" (Some jan05) (Some 10%Q) (Some "Vegetative") (Some "Good") (Some 1);
   Obs.mk "1" None (Some 99%Q) (Some "Flowering") (Some "Poor") (Some 2);
   Obs.mk "1" (Some jan10) (Some 20%Q) (Some "Flowering") (Some "Good") None;
   Obs.mk "2" (Some jan05) None (Some "Seedling") (Some "Fair") (Some 4)].

Definition point_centroid (g : Q * Q) : Point := mkPoint (Some (fst g)) (Some (snd g)).

Definition plot (id : string) (row_id crop_class variety : string) (g : Q * Q)
  : Planting.row (Q * Q) :=
  Planting.mk id (Some (mkDate 2023 11 20)) (Some row_id) (Some "B1")
              (Some crop_class) (Some variety) g.

Definition plot1 := plot "1" "R1" "Cereal" "Maize" (36%Q, 1%Q).
Definition plot2 := plot "2" "R2" "Cereal" "Wheat" (38%Q, 3%Q).
Definition plot99 := plot "99" "R3" "Legume" "Bean" (40%Q, 5%Q).

Definition sample_planting : list (Planting.row (Q * Q)) := [plot1; plot2; plot99].

Definition sample_merged : list (Merged.row (Q * Q)) :=
  merged_gdf sample_planting sample_raw.

(** The merged rows of plots "2" and "99". *)
Definition merged2 : Merged.row (Q * Q) :=
  fillna (join_row plot2
            (Some (agg_group ("2", filter (fun r => String.eqb (Obs.Crop_id r) "2")
                                          (monitoring_df sample_raw))))).

Definition merged99 : Merged.row (Q * Q) := fillna (join_row plot99 None).

(** Two observations of one crop on one day with different health labels. *)
Definition tie_rows : list Obs.row :=
  [Obs.mk "1" (Some jan05) (Some 10%Q) (Some "Vegetative") (Some "Poor") (Some 1);
   Obs.mk "1" (Some jan05) (Some 12%Q) (Some "Vegetative") (Some "Good") (Some 2)].

(** The first sample observation, the aggregate record and the merged
    row of crop "1", the per-date table of plot "R1" and the one row
    of the per-date table of [tie_rows]. *)
Definition obs1 : Obs.row :=
  Obs.mk "1" (Some jan05) (Some 10%Q) (Some "Vegetative") (Some "Good") (Some 1).

Definition agg1 : Agg.row := agg_group ("1", rows_of_crop "1" (monitoring_df sample_raw)).

Definition merged1 : Merged.row (Q * Q) := fillna (join_row plot1 (Some agg1)).

Definition chart_R1 : list Progress.row :=
  [Progress.mk jan05 (Some 10%Q) "Good"; Progress.mk jan10 (Some 20%Q) "Good"].

Definition tie_day : Progress.row := Progress.mk jan05 (Some 11%Q) "Good".

(** A crop observed once with no height, stage or health recorded, a
    crop observed once with no fid, and the sample table reduced to
    the dated rows of crop "1". *)
Definition null_raw : list Obs.row :=
  [Obs.mk "2" (Some jan05) None None None (Some 4)].

Definition merged2_null : Merged.row (Q * Q) :=
  fillna (join_row plot2
            (Some (agg_group ("2", rows_of_crop "2" (monitoring_df null_raw))))).

Definition plot7 := plot "7" "R7" "Cereal" "Maize" (36%Q, 1%Q).

Definition nofid_raw : list Obs.row :=
  [Obs.mk "7" (Some jan05) (Some 10%Q) (Some "Vegetative") (Some "Good") None].

Definition crop1_raw : list Obs.row :=
  [obs1; Obs.mk "1" (Some jan10) (Some 20%Q) (Some "Flowering") (Some "Good") None].


(** * Properties *)

(** ** Lists: distinct values, sorting, counting *)

Section ListFacts.

Variable A : Type.
Variable eqb : A -> A -> bool.
Hypothesis eqb_spec : forall a b, eqb a b = true <-> a = b.

Lemma unique_In (l : list A) (a : A) : In a (unique eqb l) <-> In a l.
Proof.
  induction l as [|h t IH]; simpl; [tauto|].
  rewrite filter_In, IH.
  destruct (eqb a h) eqn:E.
  - apply eqb_spec in E. subst. simpl. intuition congruence.
  - simpl. split; [tauto|].
    intros [->|Ht]; [|tauto].
    assert (eqb a a = true) by now apply eqb_spec.
    congruence.
Qed.

Lemma unique_NoDup (l : list A) : NoDup (unique eqb l).
Proof.
  induction l as [|h t IH]; simpl; constructor.
  - rewrite filter_In. intros [_ Hn].
    assert (eqb h h = true) by now apply eqb_spec.
    rewrite H in Hn. discriminate.
  - now apply NoDup_filter.
Qed.

Variable leb : A -> A -> bool.

Lemma insert_sorted_perm (a : A) (l : list A) :
  Permutation (insert_sorted leb a l) (a :: l).
Proof.
  induction l as [|h t IH]; simpl; [reflexivity|].
  destruct (leb a h); [reflexivity|].
  rewrite IH. apply perm_swap.
Qed.

Lemma sort_perm (l : list A) : Permutation (sort leb l) l.
Proof.
  induction l as [|h t IH]; simpl; [reflexivity|].
  rewrite insert_sorted_perm. now constructor.
Qed.

Lemma sort_In (l : list A) (a : A) : In a (sort leb l) <-> In a l.
Proof.
  split; apply Permutation_in; [|symmetry]; apply sort_perm.
Qed.

Lemma sort_NoDup (l : list A) : NoDup l -> NoDup (sort leb l).
Proof.
  apply Permutation_NoDup. symmetry. apply sort_perm.
Qed.

Hypothesis leb_total : forall a b, leb a b = true \/ leb b a = true.
Hypothesis leb_trans : forall a b c, leb a b = true -> leb b c = true -> leb a c = true.

Lemma leb_refl (a : A) : leb a a = true.
Proof. destruct (leb_total a a); assumption. Qed.

(** The head of a sorted list is below every element. *)
Lemma sort_head_least (l : list A) (m : A) (rest : list A) :
  sort leb l = m :: rest -> forall a, In a l -> leb m a = true.
Proof.
  revert m rest.
  induction l as [|h t IH]; intros m rest Hs a Ha; [destruct Ha|].
  simpl in Hs.
  destruct (sort leb t) as [|m' rest'] eqn:Et.
  - simpl in Hs. injection Hs as <- <-.
    destruct Ha as [<-|Ha]; [apply leb_refl|].
    apply (sort_In t) in Ha. rewrite Et in Ha. destruct Ha.
  - assert (Hm' : forall b, In b t -> leb m' b = true) by (intros; eapply IH; eauto).
    simpl in Hs. destruct (leb h m') eqn:Ehm; injection Hs as <- <-.
    + destruct Ha as [<-|Ha]; [apply leb_refl|].
      eapply leb_trans; eauto.
    + destruct Ha as [<-|Ha]; [|auto].
      destruct (leb_total m' h); congruence.
Qed.

Lemma sort_nil_inv (l : list A) : sort leb l = [] -> l = [].
Proof.
  intros H. pose proof (sort_perm l) as P. rewrite H in P.
  now apply Permutation_nil in P.
Qed.

(** Counting: the largest count bounds every count and is reached. *)
Lemma max_count_bound (f : A -> nat) (l : list A) (a : A) :
  In a l -> (f a <= fold_right Nat.max 0 (map f l))%nat.
Proof.
  induction l as [|h t IH]; simpl; [tauto|].
  intros [->|Ha]; [lia|]. specialize (IH Ha). lia.
Qed.

Lemma max_count_reached (f : A -> nat) (l : list A) :
  l <> [] -> exists a, In a l /\ f a = fold_right Nat.max 0%nat (map f l).
Proof.
  induction l as [|h t IH]; [congruence|]. intros _.
  destruct t as [|h' t'].
  - exists h. simpl. split; [auto|lia].
  - destruct IH as [a [Ha Hf]]; [congruence|].
    change (fold_right Nat.max 0%nat (map f (h :: h' :: t')))
      with (Nat.max (f h) (fold_right Nat.max 0%nat (map f (h' :: t')))).
    destruct (Nat.max_spec (f h) (fold_right Nat.max 0%nat (map f (h' :: t'))))
      as [[_ E]|[_ E]]; rewrite E.
    + exists a. split; [now right|assumption].
    + exists h. split; [now left|reflexivity].
Qed.

End ListFacts.

(** ** The order on strings *)

Lemma string_compare_trans (a b c : string) :
  String.compare a b <> Gt -> String.compare b c <> Gt -> String.compare a c <> Gt.
Proof.
  revert b c.
  induction a as [|p a IH]; intros [|q b] [|r c]; simpl; try congruence.
  unfold Ascii.compare.
  destruct (N.compare_spec (N_of_ascii p) (N_of_ascii q)),
           (N.compare_spec (N_of_ascii q) (N_of_ascii r)),
           (N.compare_spec (N_of_ascii p) (N_of_ascii r));
    try congruence; try lia; eauto.
Qed.

Lemma string_leb_trans (a b c : string) :
  String.leb a b = true -> String.leb b c = true -> String.leb a c = true.
Proof.
  unfold String.leb. intros Hab Hbc.
  pose proof (string_compare_trans a b c) as T.
  destruct (String.compare a b), (String.compare b c), (String.compare a c);
    try reflexivity; try discriminate; exfalso; apply T; congruence.
Qed.

Lemma string_eqb_spec (a b : string) : String.eqb a b = true <-> a = b.
Proof. apply String.eqb_eq. Qed.

(** ** The aggregator *)

Lemma agg_monitoring_keys (df : list Obs.row) :
  map Agg.Crop_id (agg_monitoring df)
  = sort String.leb (unique String.eqb (map Obs.Crop_id df)).
Proof.
  unfold agg_monitoring, groupby_Crop_id.
  rewrite !map_map. simpl. apply map_id.
Qed.

Lemma agg_monitoring_keys_NoDup (df : list Obs.row) :
  NoDup (map Agg.Crop_id (agg_monitoring df)).
Proof.
  rewrite agg_monitoring_keys.
  apply sort_NoDup, unique_NoDup, string_eqb_spec.
Qed.

Lemma agg_monitoring_In (df : list Obs.row) (a : Agg.row) :
  In a (agg_monitoring df) <->
  In (Agg.Crop_id a) (map Obs.Crop_id df)
  /\ a = agg_group (Agg.Crop_id a, rows_of_crop (Agg.Crop_id a) df).
Proof.
  unfold agg_monitoring, groupby_Crop_id. rewrite map_map, in_map_iff.
  split.
  - intros [k [<- Hk]]. simpl.
    rewrite sort_In, (unique_In _ _ string_eqb_spec) in Hk.
    split; [exact Hk|reflexivity].
  - intros [Hk Ha]. exists (Agg.Crop_id a). split; [now symmetry|].
    now rewrite sort_In, (unique_In _ _ string_eqb_spec).
Qed.

(** ** The left join *)

Section JoinFacts.

Variable B : Type.
Variable key : B -> string.

Lemma filter_no_key (k : string) (l : list B) :
  ~ In k (map key l) -> filter (fun a => String.eqb k (key a)) l = [].
Proof.
  induction l as [|h t IH]; simpl; [reflexivity|].
  intros Hn. destruct (String.eqb k (key h)) eqn:E.
  - apply String.eqb_eq in E. exfalso. apply Hn. now left.
  - apply IH. tauto.
Qed.

Lemma find_no_key (k : string) (l : list B) :
  ~ In k (map key l) -> find (fun a => String.eqb k (key a)) l = None.
Proof.
  induction l as [|h t IH]; simpl; [reflexivity|].
  intros Hn. destruct (String.eqb k (key h)) eqn:E.
  - apply String.eqb_eq in E. exfalso. apply Hn. now left.
  - apply IH. tauto.
Qed.

(** With distinct keys on the right, at most one row matches a key. *)
Lemma filter_unique_key (k : string) (l : list B) :
  NoDup (map key l) ->
  filter (fun a => String.eqb k (key a)) l
  = match find (fun a => String.eqb k (key a)) l with
    | Some a => [a]
    | None => []
    end.
Proof.
  induction l as [|h t IH]; simpl; [reflexivity|].
  intros Hnd. inversion Hnd as [|? ? Hh Ht]; subst.
  destruct (String.eqb k (key h)) eqn:E.
  - apply String.eqb_eq in E. subst k.
    now rewrite filter_no_key.
  - now apply IH.
Qed.

End JoinFacts.

Lemma merge_left_unique_keys {Geometry} (left : list (Planting.row Geometry))
      (right : list Agg.row) :
  NoDup (map Agg.Crop_id right) ->
  merge_left left right
  = map (fun l => join_row l
                    (find (fun a => String.eqb (Planting.id l) (Agg.Crop_id a)) right))
        left.
Proof.
  intros Hnd. unfold merge_left.
  induction left as [|l t IH]; [reflexivity|].
  change (flat_map ?f (l :: t)) with (f l ++ flat_map f t).
  rewrite IH, (filter_unique_key _ Agg.Crop_id _ _ Hnd).
  cbn [map].
  now destruct (find (fun a => String.eqb (Planting.id l) (Agg.Crop_id a)) right).
Qed.

(** Every merged row is the filled join of one centroid row with the
    aggregate row of its crop, if any. *)
Lemma merged_gdf_rows {Geometry} (planting : list (Planting.row Geometry))
      (raw : list Obs.row) :
  merged_gdf planting raw
  = map (fun l => fillna (join_row l
                    (find (fun a => String.eqb (Planting.id l) (Agg.Crop_id a))
                          (agg_monitoring (monitoring_df raw)))))
        planting.
Proof.
  unfold merged_gdf.
  rewrite merge_left_unique_keys by apply agg_monitoring_keys_NoDup.
  now rewrite map_map.
Qed.

Lemma planting_of_fillna_join {Geometry} (l : Planting.row Geometry) (r : option Agg.row) :
  planting_of (fillna (join_row l r)) = l.
Proof. now destruct l. Qed.

(** C1. Left-join cardinality: the merged table has one row per
    planting-centroid row, in the same order, each carrying the
    left-hand columns of the centroid row at the same position, and
    the group-by yields at most one aggregate row per crop_id; this
    holds whether or not the centroid has an aggregate. *)
Theorem merge_keeps_each_centroid_once {Geometry}
        (planting : list (Planting.row Geometry)) (raw : list Obs.row) :
  map planting_of (merged_gdf planting raw) = planting
  /\ List.length (merged_gdf planting raw) = List.length planting
  /\ forall k,
      (List.length (filter (fun a => String.eqb k (Agg.Crop_id a))
                           (agg_monitoring (monitoring_df raw))) <= 1)%nat.
Proof.
  rewrite merged_gdf_rows. repeat split.
  - rewrite map_map. erewrite map_ext; [apply map_id|].
    intros l. apply planting_of_fillna_join.
  - apply length_map.
  - intros k.
    rewrite (filter_unique_key _ Agg.Crop_id)
      by apply agg_monitoring_keys_NoDup.
    destruct (find _ _); simpl; lia.
Qed.

Lemma rows_of_crop_nonempty (k : string) (df : list Obs.row) :
  rows_of_crop k df <> [] -> In k (map Obs.Crop_id df).
Proof.
  unfold rows_of_crop. intros Hne.
  destruct (filter _ df) as [|r rs] eqn:E; [congruence|].
  assert (Hr : In r (filter (fun r => String.eqb (Obs.Crop_id r) k) df))
    by (rewrite E; now left).
  apply filter_In in Hr. destruct Hr as [Hr Hk].
  apply String.eqb_eq in Hk. subst k. now apply in_map.
Qed.

Lemma agg_monitoring_find (k : string) (df : list Obs.row) :
  In k (map Obs.Crop_id df) ->
  find (fun a => String.eqb k (Agg.Crop_id a)) (agg_monitoring df)
  = Some (agg_group (k, rows_of_crop k df)).
Proof.
  intros Hk.
  destruct (find _ (agg_monitoring df)) as [a|] eqn:E.
  - apply find_some in E. destruct E as [Ha Hka].
    apply String.eqb_eq in Hka. subst k.
    apply agg_monitoring_In in Ha. destruct Ha as [_ Ha]. now rewrite <- Ha.
  - exfalso.
    assert (Ha : In (agg_group (k, rows_of_crop k df)) (agg_monitoring df))
      by (apply agg_monitoring_In; simpl; auto).
    apply (find_none _ _ E) in Ha. simpl in Ha.
    now rewrite String.eqb_refl in Ha.
Qed.

Lemma dropna_all_null {A} (s : list (option A)) :
  (forall c, In c s -> c = None) -> dropna s = [].
Proof.
  induction s as [|c t IH]; intros H; [reflexivity|].
  rewrite (H c (or_introl eq_refl)). simpl. apply IH.
  intros c' Hc'. apply H. now right.
Qed.

Lemma dropna_length_filter {A B} (f : A -> option B) (l : list A) :
  List.length (dropna (map f l)) = List.length (filter (fun r => notna (f r)) l).
Proof.
  induction l as [|h t IH]; simpl; [reflexivity|].
  destruct (f h); simpl; now rewrite IH.
Qed.

Section MergedRows.

Variable Geometry : Type.
Variable planting : list (Planting.row Geometry).
Variable raw : list Obs.row.

Let agg := agg_monitoring (monitoring_df raw).

Lemma merged_row_inv (m : Merged.row Geometry) :
  In m (merged_gdf planting raw) ->
  In (planting_of m) planting
  /\ m = fillna (join_row (planting_of m)
                  (find (fun a => String.eqb (Merged.id m) (Agg.Crop_id a)) agg)).
Proof.
  rewrite merged_gdf_rows, in_map_iff. intros [l [<- Hl]].
  now rewrite planting_of_fillna_join.
Qed.

Lemma merged_row_exists (c : Planting.row Geometry) :
  In c planting -> exists m, In m (merged_gdf planting raw) /\ planting_of m = c.
Proof.
  intros Hc. rewrite merged_gdf_rows. eexists. split.
  - apply in_map_iff. exists c. split; [reflexivity|assumption].
  - apply planting_of_fillna_join.
Qed.

Lemma merged_row_unmatched (m : Merged.row Geometry) :
  In m (merged_gdf planting raw) ->
  ~ In (Merged.id m) (map Agg.Crop_id agg) ->
  m = fillna (join_row (planting_of m) None).
Proof.
  intros Hm Hn. apply merged_row_inv in Hm. destruct Hm as [_ Hm].
  now rewrite (find_no_key _ Agg.Crop_id) in Hm.
Qed.

Lemma merged_row_matched (m : Merged.row Geometry) :
  In m (merged_gdf planting raw) ->
  rows_of_crop (Merged.id m) (monitoring_df raw) <> [] ->
  m = fillna (join_row (planting_of m)
                (Some (agg_group (Merged.id m,
                                  rows_of_crop (Merged.id m) (monitoring_df raw))))).
Proof.
  intros Hm Hne. apply merged_row_inv in Hm. destruct Hm as [_ Hm].
  unfold agg in Hm.
  now rewrite agg_monitoring_find in Hm by now apply rows_of_crop_nonempty.
Qed.

End MergedRows.

(** C2. A centroid row whose id is the crop_id of no aggregate row has
    a merged row, and every merged row built from it carries the
    defaults: avg_height 0, last_stage and last_crop_health "N/A",
    observations_count 0. *)
Theorem unmatched_centroid_has_defaults {Geometry}
        (planting : list (Planting.row Geometry)) (raw : list Obs.row)
        (c : Planting.row Geometry) :
  In c planting ->
  ~ In (Planting.id c) (map Agg.Crop_id (agg_monitoring (monitoring_df raw))) ->
  (exists m, In m (merged_gdf planting raw) /\ planting_of m = c)
  /\ forall m, In m (merged_gdf planting raw) -> planting_of m = c ->
       Merged.avg_height m = Some 0%Q
       /\ Merged.last_stage m = Some "N/A"
       /\ Merged.last_crop_health m = Some "N/A"
       /\ Merged.observations_count m = Some 0.
Proof.
  intros Hc Hn. split; [now apply merged_row_exists|].
  intros m Hm Hpc.
  assert (Hid : Merged.id m = Planting.id c) by now rewrite <- Hpc.
  rewrite <- Hid in Hn.
  rewrite (merged_row_unmatched _ _ _ _ Hm Hn). repeat split.
Qed.

(** C10. last_observed is not among the filled columns: the merged row
    of a centroid without a matching aggregate keeps a null
    last_observed (and a null Crop_id) while the four listed columns
    are defaulted, and the popup prints that null date as N/A. *)
Theorem unmatched_last_observed_stays_null {Geometry}
        (planting : list (Planting.row Geometry)) (raw : list Obs.row)
        (m : Merged.row Geometry) :
  In m (merged_gdf planting raw) ->
  ~ In (Merged.id m) (map Agg.Crop_id (agg_monitoring (monitoring_df raw))) ->
  Merged.last_observed m = None
  /\ Merged.Crop_id m = None
  /\ (Merged.avg_height m = Some 0%Q
      /\ Merged.last_stage m = Some "N/A"
      /\ Merged.last_crop_health m = Some "N/A"
      /\ Merged.observations_count m = Some 0)
  /\ popup_date_observed m = "N/A"
  /\ popup_date_observed_line m = "<strong>Date Observed:</strong> N/A<br>".
Proof.
  intros Hm Hn.
  rewrite (merged_row_unmatched _ _ _ _ Hm Hn). repeat split.
Qed.

(** C9. The fill acts on every null of the four listed columns,
    matched row or not: on any row each listed column becomes its
    default when null and is kept otherwise, and the columns not
    listed are untouched.  So a centroid joined to its aggregate
    (Crop_id and the count are those of the aggregate) ends with
    avg_height 0 when every height of its crop is null, the value an
    unmatched centroid gets, and with "N/A" for last_stage or
    last_crop_health when that column is null in all its rows. *)
Theorem fill_defaults_every_null_listed_column {Geometry}
        (planting : list (Planting.row Geometry)) (raw : list Obs.row)
        (m : Merged.row Geometry) :
  In m (merged_gdf planting raw) ->
  rows_of_crop (Merged.id m) (monitoring_df raw) <> [] ->
  (Merged.Crop_id m = Some (Merged.id m)
   /\ Merged.observations_count m
      = Some (series_count (map Obs.fid (rows_of_crop (Merged.id m) (monitoring_df raw)))))
  /\ ((forall r, In r (rows_of_crop (Merged.id m) (monitoring_df raw)) ->
                 Obs.height_cm r = None) ->
      Merged.avg_height m = Some 0%Q)
  /\ ((forall r, In r (rows_of_crop (Merged.id m) (monitoring_df raw)) ->
                 Obs.stage r = None) ->
      Merged.last_stage m = Some "N/A")
  /\ ((forall r, In r (rows_of_crop (Merged.id m) (monitoring_df raw)) ->
                 Obs.crop_health r = None) ->
      Merged.last_crop_health m = Some "N/A")
  /\ forall r : Merged.row Geometry,
      Merged.avg_height (fillna r)
      = Some (match Merged.avg_height r with Some v => v | None => 0%Q end)
      /\ Merged.last_stage (fillna r)
         = Some (match Merged.last_stage r with Some v => v | None => "N/A" end)
      /\ Merged.last_crop_health (fillna r)
         = Some (match Merged.last_crop_health r with Some v => v | None => "N/A" end)
      /\ Merged.observations_count (fillna r)
         = Some (match Merged.observations_count r with Some v => v | None => 0 end)
      /\ Merged.Crop_id (fillna r) = Merged.Crop_id r
      /\ Merged.last_observed (fillna r) = Merged.last_observed r.
Proof.
  intros Hm Hne.
  pose proof (merged_row_matched _ _ _ _ Hm Hne) as E.
  set (g := rows_of_crop (Merged.id m) (monitoring_df raw)) in *.
  assert (Hcol : forall (B : Type) (f : Obs.row -> option B),
             (forall r, In r g -> f r = None) -> dropna (map f g) = []).
  { intros B f Hnull. apply dropna_all_null.
    intros c Hc. apply in_map_iff in Hc. destruct Hc as [r [<- Hr]]. now apply Hnull. }
  split; [|split; [|split; [|split]]].
  - split; rewrite E at 1; reflexivity.
  - intros Hnull. rewrite E at 1. simpl.
    unfold series_mean. now rewrite (Hcol _ Obs.height_cm Hnull).
  - intros Hnull. rewrite E at 1. simpl.
    unfold series_last. now rewrite (Hcol _ Obs.stage Hnull).
  - intros Hnull. rewrite E at 1. simpl.
    unfold series_last. now rewrite (Hcol _ Obs.crop_health Hnull).
  - intros r. simpl.
    destruct (Merged.avg_height r), (Merged.last_stage r),
             (Merged.last_crop_health r), (Merged.observations_count r);
      repeat split.
Qed.

(** ** Dropping the rows whose date did not parse *)

Lemma monitoring_df_drops (pre post : list Obs.row) (r : Obs.row) :
  Obs.date_observed r = None ->
  monitoring_df (pre ++ r :: post) = monitoring_df (pre ++ post).
Proof.
  intros Hr. unfold monitoring_df.
  rewrite !filter_app. simpl. now rewrite Hr.
Qed.

(** C3. An observation row whose date did not parse is absent from
    the table that is aggregated; with it or without it in the input,
    wherever it stands, the aggregate records (every field of every
    crop_id) and the merged table are the same. *)
Theorem unparsable_date_row_contributes_nothing
        (pre post : list Obs.row) (r : Obs.row) :
  Obs.date_observed r = None ->
  ~ In r (monitoring_df (pre ++ r :: post))
  /\ monitoring_df (pre ++ r :: post) = monitoring_df (pre ++ post)
  /\ agg_monitoring (monitoring_df (pre ++ r :: post))
     = agg_monitoring (monitoring_df (pre ++ post))
  /\ forall Geometry (planting : list (Planting.row Geometry)),
       merged_gdf planting (pre ++ r :: post) = merged_gdf planting (pre ++ post).
Proof.
  intros Hr. repeat split.
  - unfold monitoring_df. rewrite filter_In, Hr. simpl. intros [_ H]. discriminate.
  - now apply monitoring_df_drops.
  - now rewrite monitoring_df_drops.
  - intros. unfold merged_gdf. now rewrite monitoring_df_drops.
Qed.

(** ** The worked example *)

(** C5. With exactly the two rows of crop "1" observed on 2024-01-05
    (height 10) and 2024-01-10 (height 20), whatever their stage and
    health and with their fid present, the aggregate has one record,
    for crop "1": avg_height 15, observations_count 2, last_observed
    2024-01-10. *)
Theorem two_observations_example (s1 h1 s2 h2 : option string) (f1 f2 : Z) :
  exists a,
    agg_monitoring
      (monitoring_df
         [Obs.mk "1" (Some (mkDate 2024 1 5)) (Some 10%Q) s1 h1 (Some f1);
          Obs.mk "1" (Some (mkDate 2024 1 10)) (Some 20%Q) s2 h2 (Some f2)])
    = [a]
    /\ Agg.Crop_id a = "1"
    /\ Agg.avg_height a = Some 15%Q
    /\ Agg.observations_count a = 2
    /\ Agg.last_observed a = Some (mkDate 2024 1 10).
Proof.
  eexists. split; [reflexivity|]. repeat split.
Qed.

(** ** The observation count *)

(** What the aggregation counts. observations_count is the number of rows
    of the group whose fid is not null: never more than the number of
    rows of the group, and equal to it when no fid of the group is
    null. *)
Theorem observations_count_counts_present_fid (df : list Obs.row) (a : Agg.row) :
  In a (agg_monitoring df) ->
  Agg.observations_count a
  = Z.of_nat (List.length (filter (fun r => notna (Obs.fid r))
                                  (rows_of_crop (Agg.Crop_id a) df)))
  /\ Agg.observations_count a <= Z.of_nat (List.length (rows_of_crop (Agg.Crop_id a) df))
  /\ ((forall r, In r (rows_of_crop (Agg.Crop_id a) df) -> Obs.fid r <> None) ->
      Agg.observations_count a = Z.of_nat (List.length (rows_of_crop (Agg.Crop_id a) df))).
Proof.
  intros Ha. apply agg_monitoring_In in Ha. destruct Ha as [_ Ha].
  set (g := rows_of_crop (Agg.Crop_id a) df) in *.
  assert (E : Agg.observations_count a
              = Z.of_nat (List.length (filter (fun r => notna (Obs.fid r)) g))).
  { rewrite Ha at 1. simpl. unfold series_count. now rewrite dropna_length_filter. }
  repeat split.
  - exact E.
  - rewrite E. apply Nat2Z.inj_le, filter_length_le.
  - intros Hall. rewrite E. f_equal. f_equal.
    apply forallb_filter_id, forallb_forall.
    intros r Hr. specialize (Hall r Hr). now destruct (Obs.fid r).
Qed.

(** ** The Map view's center *)

Lemma series_mean_value (s : list (option Q)) (m : Q) :
  series_mean s = Some m ->
  dropna s <> []
  /\ (m == series_sum (dropna s) / inject_Z (Z.of_nat (List.length (dropna s))))%Q.
Proof.
  unfold series_mean. destruct (dropna s) as [|v vs]; [discriminate|].
  intros E. injection E as E. split; [discriminate|].
  rewrite <- E. exact (Qred_correct _).
Qed.

(** C8. With a non-empty filtered set the center is [latitude,
    longitude] with each the mean of the rows' centroid coordinate
    (the sum of the non-null values over their number); with an empty
    one it is [0, 0]. *)
Theorem farm_center_mean_or_origin {Geometry} (geom_centroid : Geometry -> Point)
        (filtered : list (Merged.row Geometry)) :
  (filtered <> [] ->
   farm_center geom_centroid filtered
   = [series_mean (map (fun r => y (centroid geom_centroid r)) filtered);
      series_mean (map (fun r => x (centroid geom_centroid r)) filtered)]
   /\ forall lat lon,
       farm_center geom_centroid filtered = [Some lat; Some lon] ->
       let lats := dropna (map (fun r => y (centroid geom_centroid r)) filtered) in
       let lons := dropna (map (fun r => x (centroid geom_centroid r)) filtered) in
       (lat == series_sum lats / inject_Z (Z.of_nat (List.length lats)))%Q
       /\ (lon == series_sum lons / inject_Z (Z.of_nat (List.length lons)))%Q)
  /\ (filtered = [] -> farm_center geom_centroid filtered = [Some 0%Q; Some 0%Q]).
Proof.
  split.
  - intros Hne. destruct filtered as [|r rs]; [congruence|].
    split; [reflexivity|].
    intros lat lon E. injection E as Ey Ex.
    apply series_mean_value in Ey, Ex. split; [apply Ey|apply Ex].
  - now intros ->.
Qed.

(** ** The filter cascade *)

Lemma col_eq_true (c : option string) (v : string) : col_eq c v = true <-> c = Some v.
Proof.
  destruct c as [s|]; simpl; [|split; discriminate].
  rewrite String.eqb_eq. split; congruence.
Qed.

Section FilterLevel.

Variable Geometry : Type.
Variable column : Merged.row Geometry -> option string.
Variable level : string -> list (Merged.row Geometry) -> list (Merged.row Geometry).
Hypothesis level_def : forall selected df,
    level selected df
    = if negb (String.eqb selected "All")
      then filter (fun r => col_eq (column r) selected) df
      else df.

Lemma level_all (df : list (Merged.row Geometry)) : level "All" df = df.
Proof. now rewrite level_def. Qed.

Lemma level_value (selected : string) (df : list (Merged.row Geometry)) :
  selected <> "All" ->
  level selected df = filter (fun r => col_eq (column r) selected) df
  /\ forall r, In r (level selected df) <-> In r df /\ column r = Some selected.
Proof.
  intros Hs. apply String.eqb_neq in Hs.
  rewrite level_def, Hs. simpl. split; [reflexivity|].
  intros r. now rewrite filter_In, col_eq_true.
Qed.

End FilterLevel.

(** C4. At each of the three levels (crop class, crop variety, stage),
    the selection "All" hands the rows it received unchanged to the
    next level, and any other selected value keeps exactly the rows
    whose field equals it, in order; the cascade is the three levels
    in sequence. *)
Theorem filter_cascade_levels {Geometry} :
  (forall df : list (Merged.row Geometry),
      filter_crop_class "All" df = df
      /\ filter_crop_variety "All" df = df
      /\ filter_stage "All" df = df)
  /\ (forall selected (df : list (Merged.row Geometry)),
         selected <> "All" ->
         (filter_crop_class selected df
          = filter (fun r => col_eq (Merged.Crop_Class r) selected) df
          /\ forall r, In r (filter_crop_class selected df)
                       <-> In r df /\ Merged.Crop_Class r = Some selected)
         /\ (filter_crop_variety selected df
             = filter (fun r => col_eq (Merged.Crop_Varie r) selected) df
             /\ forall r, In r (filter_crop_variety selected df)
                          <-> In r df /\ Merged.Crop_Varie r = Some selected)
         /\ (filter_stage selected df
             = filter (fun r => col_eq (Merged.last_stage r) selected) df
             /\ forall r, In r (filter_stage selected df)
                          <-> In r df /\ Merged.last_stage r = Some selected))
  /\ (forall (merged : list (Merged.row Geometry)) crop variety stage,
         filtered_gdf merged crop variety stage
         = filter_stage stage (filter_crop_variety variety (filter_crop_class crop merged))
         /\ filtered_gdf merged "All" variety stage
            = filter_stage stage (filter_crop_variety variety merged)
         /\ filtered_gdf merged crop "All" stage
            = filter_stage stage (filter_crop_class crop merged)
         /\ filtered_gdf merged crop variety "All"
            = filter_crop_variety variety (filter_crop_class crop merged)).
Proof.
  split; [|split].
  - intros df. repeat split.
  - intros selected df Hs. split; [|split].
    + apply (level_value _ Merged.Crop_Class filter_crop_class); [reflexivity|exact Hs].
    + apply (level_value _ Merged.Crop_Varie filter_crop_variety); [reflexivity|exact Hs].
    + apply (level_value _ Merged.last_stage filter_stage); [reflexivity|exact Hs].
  - intros. repeat split.
Qed.

(** ** The Progress view's modal health *)

Section ModeFacts.

Variable s : list (option string).

Let v := dropna s.
Let n (l : string) := count_occ_by String.eqb l v.

Lemma series_mode_In (l : string) :
  In l (series_mode s) <-> In l v /\ n l = max_count String.eqb v.
Proof.
  unfold series_mode. fold v.
  rewrite sort_In, filter_In, (unique_In _ _ string_eqb_spec), Nat.eqb_eq.
  reflexivity.
Qed.

Lemma count_le_max (l : string) : In l v -> (n l <= max_count String.eqb v)%nat.
Proof. intros Hl. unfold max_count. now apply (max_count_bound _ n). Qed.

Lemma series_mode_nonempty : v <> [] -> series_mode s <> [].
Proof.
  intros Hne Hnil.
  destruct (max_count_reached _ n v Hne) as [l [Hl Hn]].
  assert (Hin : In l (series_mode s)) by (apply series_mode_In; auto).
  rewrite Hnil in Hin. destruct Hin.
Qed.

Lemma modal_health_null : v = [] -> modal_health s = "N/A".
Proof.
  intros Hv. unfold modal_health, series_mode. fold v. now rewrite Hv.
Qed.

Lemma modal_health_most_frequent_smallest :
  v <> [] ->
  In (modal_health s) v
  /\ (forall l, In l v -> (n l <= n (modal_health s))%nat)
  /\ (forall l, In l v -> n l = n (modal_health s) ->
                String.leb (modal_health s) l = true).
Proof.
  intros Hne. pose proof (series_mode_nonempty Hne) as Hm.
  unfold modal_health.
  destruct (series_mode s) as [|h rest] eqn:E; [congruence|].
  assert (Hh : In h (series_mode s)) by (rewrite E; now left).
  apply series_mode_In in Hh. destruct Hh as [Hhv Hhn].
  repeat split.
  - exact Hhv.
  - intros l Hl. rewrite Hhn. now apply count_le_max.
  - intros l Hl Hln.
    assert (Hlm : In l (series_mode s)) by (apply series_mode_In; split; congruence).
    unfold series_mode in E, Hlm.
    apply sort_In in Hlm.
    exact (sort_head_least _ String.leb String.leb_total string_leb_trans
                            _ _ _ E l Hlm).
Qed.

End ModeFacts.

Lemma progress_agg_In (df : list Obs.row) (row : Progress.row) :
  In row (progress_agg df) ->
  Progress.avg_crop_health row
  = modal_health (map Obs.crop_health (rows_of_date (Progress.date_observed row) df))
  /\ Progress.avg_height row
     = series_mean (map Obs.height_cm (rows_of_date (Progress.date_observed row) df)).
Proof.
  unfold progress_agg, groupby_date_observed.
  rewrite map_map, in_map_iff. intros [k [<- _]]. split; reflexivity.
Qed.

(** C6, as the code has it. For each date of the per-date table, the
    health reported is a most frequent non-null label of that date's
    rows, and among labels tied for most frequent it is the smallest
    in string order; with no non-null label it is "N/A". *)
Theorem progress_health_is_smallest_mode (progress_df : list Obs.row) (row : Progress.row) :
  In row (progress_agg progress_df) ->
  let labels :=
    dropna (map Obs.crop_health (rows_of_date (Progress.date_observed row) progress_df)) in
  let n := fun l => count_occ_by String.eqb l labels in
  (labels = [] -> Progress.avg_crop_health row = "N/A")
  /\ (labels <> [] ->
      In (Progress.avg_crop_health row) labels
      /\ (forall l, In l labels -> (n l <= n (Progress.avg_crop_health row))%nat)
      /\ (forall l, In l labels -> n l = n (Progress.avg_crop_health row) ->
                    String.leb (Progress.avg_crop_health row) l = true)).
Proof.
  intros Hrow. apply progress_agg_In in Hrow. destruct Hrow as [Hh _].
  cbv zeta. rewrite Hh. split.
  - apply modal_health_null.
  - apply modal_health_most_frequent_smallest.
Qed.

(** ** The properties on the sample tables *)

Lemma unmatched_centroid_has_defaults_witness :
  (exists m, In m sample_merged /\ planting_of m = plot99)
  /\ forall m, In m sample_merged -> planting_of m = plot99 ->
       Merged.avg_height m = Some 0%Q
       /\ Merged.last_stage m = Some "N/A"
       /\ Merged.last_crop_health m = Some "N/A"
       /\ Merged.observations_count m = Some 0.
Proof.
  apply (unmatched_centroid_has_defaults sample_planting sample_raw plot99).
  - simpl. auto.
  - vm_compute. intros [H|[H|[]]]; discriminate H.
Defined.

Lemma unmatched_last_observed_stays_null_witness :
  Merged.last_observed merged99 = None
  /\ Merged.Crop_id merged99 = None
  /\ (Merged.avg_height merged99 = Some 0%Q
      /\ Merged.last_stage merged99 = Some "N/A"
      /\ Merged.last_crop_health merged99 = Some "N/A"
      /\ Merged.observations_count merged99 = Some 0)
  /\ popup_date_observed merged99 = "N/A"
  /\ popup_date_observed_line merged99 = "<strong>Date Observed:</strong> N/A<br>".
Proof.
  apply (unmatched_last_observed_stays_null sample_planting sample_raw merged99).
  - vm_compute. right. right. left. reflexivity.
  - vm_compute. intros [H|[H|[]]]; discriminate H.
Defined.

Lemma fill_defaults_every_null_listed_column_witness :
  (Merged.Crop_id merged2_null = Some "2"
   /\ Merged.observations_count merged2_null = Some 1)
  /\ Merged.avg_height merged2_null = Some 0%Q
  /\ Merged.last_stage merged2_null = Some "N/A"
  /\ Merged.last_crop_health merged2_null = Some "N/A".
Proof.
  destruct (fill_defaults_every_null_listed_column [plot2] null_raw merged2_null)
    as [Hid [Havg [Hstage [Hhealth _]]]].
  - vm_compute. left. reflexivity.
  - vm_compute. discriminate.
  - split; [exact Hid|]. split; [|split].
    + apply Havg. vm_compute. intros r [<-|[]]. reflexivity.
    + apply Hstage. vm_compute. intros r [<-|[]]. reflexivity.
    + apply Hhealth. vm_compute. intros r [<-|[]]. reflexivity.
Defined.

Lemma unparsable_date_row_contributes_nothing_witness :
  agg_monitoring (monitoring_df sample_raw)
  = agg_monitoring
      (monitoring_df
         [Obs.mk "1" (Some jan05) (Some 10%Q) (Some "Vegetative") (Some "Good") (Some 1);
          Obs.mk "1" (Some jan10) (Some 20%Q) (Some "Flowering") (Some "Good") None;
          Obs.mk "2" (Some jan05) None (Some "Seedling") (Some "Fair") (Some 4)]).
Proof.
  apply (unparsable_date_row_contributes_nothing
           [Obs.mk "1" (Some jan05) (Some 10%Q) (Some "Vegetative") (Some "Good") (Some 1)]
           [Obs.mk "1" (Some jan10) (Some 20%Q) (Some "Flowering") (Some "Good") None;
            Obs.mk "2" (Some jan05) None (Some "Seedling") (Some "Fair") (Some 4)]
           (Obs.mk "1" None (Some 99%Q) (Some "Flowering") (Some "Poor") (Some 2))).
  reflexivity.
Defined.

Lemma filter_cascade_levels_witness :
  filter_crop_class "Cereal" sample_merged
  = filter (fun r => col_eq (Merged.Crop_Class r) "Cereal") sample_merged
  /\ forall r, In r (filter_crop_class "Cereal" sample_merged)
               <-> In r sample_merged /\ Merged.Crop_Class r = Some "Cereal".
Proof.
  apply (proj1 (proj2 filter_cascade_levels) "Cereal" sample_merged).
  vm_compute. discriminate.
Defined.

Lemma farm_center_mean_or_origin_witness :
  farm_center point_centroid sample_merged = [Some 3%Q; Some 38%Q]
  /\ farm_center point_centroid (filter_crop_class "Fruit" sample_merged)
     = [Some 0%Q; Some 0%Q].
Proof.
  split.
  - destruct (proj1 (farm_center_mean_or_origin point_centroid sample_merged))
      as [E _].
    + vm_compute. discriminate.
    + rewrite E. vm_compute. reflexivity.
  - apply (proj2 (farm_center_mean_or_origin point_centroid
                    (filter_crop_class "Fruit" sample_merged))).
    vm_compute. reflexivity.
Defined.

Lemma observations_count_counts_present_fid_witness :
  Agg.observations_count (agg_group ("1", rows_of_crop "1" (monitoring_df sample_raw)))
  = Z.of_nat (List.length
                (filter (fun r => notna (Obs.fid r))
                        (rows_of_crop "1" (monitoring_df sample_raw))))
  /\ Agg.observations_count (agg_group ("1", rows_of_crop "1" (monitoring_df sample_raw)))
     <= Z.of_nat (List.length (rows_of_crop "1" (monitoring_df sample_raw))).
Proof.
  destruct (observations_count_counts_present_fid
              (monitoring_df sample_raw)
              (agg_group ("1", rows_of_crop "1" (monitoring_df sample_raw))))
    as [E [L _]].
  - vm_compute. left. reflexivity.
  - split; [exact E|exact L].
Defined.

Lemma progress_health_is_smallest_mode_witness :
  In "Good" ["Poor"; "Good"]
  /\ (forall l, In l ["Poor"; "Good"] ->
        (count_occ_by String.eqb l ["Poor"; "Good"]
         <= count_occ_by String.eqb "Good" ["Poor"; "Good"])%nat)
  /\ (forall l, In l ["Poor"; "Good"] ->
        count_occ_by String.eqb l ["Poor"; "Good"]
        = count_occ_by String.eqb "Good" ["Poor"; "Good"] ->
        String.leb "Good" l = true).
Proof.
  destruct (progress_health_is_smallest_mode
              tie_rows (Progress.mk jan05 (Some 11%Q) "Good")) as [_ H].
  - vm_compute. left. reflexivity.
  - apply H. vm_compute. discriminate.
Defined.

(** ** Where the code departs from two statements *)

(** In the sample table crop "1" has two rows with
    a parsed date, one of them without fid, and its observations_count
    is 1. *)
Lemma observations_count_not_row_count :
  map Agg.observations_count (agg_monitoring (monitoring_df sample_raw)) = [1; 1]
  /\ map (fun a => Z.of_nat (List.length
                               (rows_of_crop (Agg.Crop_id a) (monitoring_df sample_raw))))
         (agg_monitoring (monitoring_df sample_raw)) = [2; 1]
  /\ ~ (forall df a, In a (agg_monitoring df) ->
          Agg.observations_count a
          = Z.of_nat (List.length (rows_of_crop (Agg.Crop_id a) df))).
Proof.
  split; [reflexivity|]. split; [reflexivity|].
  intros H.
  specialize (H (monitoring_df sample_raw)
                (agg_group ("1", rows_of_crop "1" (monitoring_df sample_raw)))).
  assert (Hin : In (agg_group ("1", rows_of_crop "1" (monitoring_df sample_raw)))
                   (agg_monitoring (monitoring_df sample_raw)))
    by (vm_compute; left; reflexivity).
  apply H in Hin. vm_compute in Hin. discriminate Hin.
Qed.

(** C7, where the code departs from it. A crop with one dated
    observation whose fid is empty has a group of one row, yet its
    observations_count is 0 and the popup prints 0 observations,
    while the same row sets last_observed and is charted by the
    Progress page: the count is taken on the non-null fid cells, not
    on the rows. *)
Theorem observed_crop_shows_zero_observations :
  map Agg.observations_count (agg_monitoring (monitoring_df nofid_raw)) = [0]
  /\ map (fun a => Z.of_nat (List.length
                               (rows_of_crop (Agg.Crop_id a) (monitoring_df nofid_raw))))
         (agg_monitoring (monitoring_df nofid_raw)) = [1]
  /\ map Merged.observations_count (merged_gdf [plot7] nofid_raw) = [Some 0]
  /\ map popup_observations (merged_gdf [plot7] nofid_raw) = [Some "0"]
  /\ map Merged.last_observed (merged_gdf [plot7] nofid_raw) = [Some jan05]
  /\ check_progress (merged_gdf [plot7] nofid_raw) (monitoring_df nofid_raw) "R7"
     = Chart [Progress.mk jan05 (Some 10%Q) "Good"].
Proof.
  repeat split.
Qed.

(** C6 fails as stated: "Poor" then "Good" on the same day, once each,
    is reported as "Good", while the first label met among the most
    frequent ones is "Poor". *)
Lemma progress_tie_not_first_encountered :
  map Progress.avg_crop_health (progress_agg tie_rows) = ["Good"]
  /\ first_encountered_mode (map Obs.crop_health (rows_of_date jan05 tie_rows))
     = Some "Poor"
  /\ exists row,
      In row (progress_agg tie_rows)
      /\ Some (Progress.avg_crop_health row)
         <> first_encountered_mode
              (map Obs.crop_health (rows_of_date (Progress.date_observed row) tie_rows)).
Proof.
  split; [reflexivity|]. split; [reflexivity|].
  exists (Progress.mk jan05 (Some 11%Q) "Good"). split.
  - vm_compute. left. reflexivity.
  - vm_compute. discriminate.
Qed.

(** * Further properties of the pipeline *)

(** ** The order on dates *)

Lemma date_compare_eq (a b : Date) : date_compare a b = Eq <-> a = b.
Proof.
  destruct a as [ya ma da], b as [yb mb db]. unfold date_compare. simpl.
  destruct (Z.compare_spec ya yb), (Z.compare_spec ma mb), (Z.compare_spec da db);
    split; intros E; try discriminate E; try (injection E; lia); subst; reflexivity.
Qed.

Lemma date_eqb_spec (a b : Date) : date_eqb a b = true <-> a = b.
Proof.
  rewrite <- date_compare_eq. unfold date_eqb.
  destruct (date_compare a b); split; congruence.
Qed.

Lemma date_leb_total (a b : Date) : date_leb a b = true \/ date_leb b a = true.
Proof.
  destruct a as [ya ma da], b as [yb mb db]. unfold date_leb, date_compare. simpl.
  destruct (Z.compare_spec ya yb), (Z.compare_spec yb ya),
           (Z.compare_spec ma mb), (Z.compare_spec mb ma),
           (Z.compare_spec da db), (Z.compare_spec db da); auto; lia.
Qed.

Lemma date_leb_trans (a b c : Date) :
  date_leb a b = true -> date_leb b c = true -> date_leb a c = true.
Proof.
  destruct a as [ya ma da], b as [yb mb db], c as [yc mc dc].
  unfold date_leb, date_compare. simpl.
  destruct (Z.compare_spec ya yb), (Z.compare_spec yb yc), (Z.compare_spec ya yc);
    try reflexivity; try discriminate; try lia;
    destruct (Z.compare_spec ma mb), (Z.compare_spec mb mc), (Z.compare_spec ma mc);
    try reflexivity; try discriminate; try lia;
    destruct (Z.compare_spec da db), (Z.compare_spec db dc), (Z.compare_spec da dc);
    try reflexivity; try discriminate; lia.
Qed.

Lemma date_leb_antisym (a b : Date) :
  date_leb a b = true -> date_leb b a = true -> a = b.
Proof.
  intros Hab Hba. apply date_compare_eq.
  destruct a as [ya ma da], b as [yb mb db].
  unfold date_leb, date_compare in *. simpl in *.
  destruct (Z.compare_spec ya yb), (Z.compare_spec yb ya),
           (Z.compare_spec ma mb), (Z.compare_spec mb ma),
           (Z.compare_spec da db), (Z.compare_spec db da);
    try reflexivity; try discriminate; lia.
Qed.

(** ** Sorting yields an ascending list *)

Section SortFacts.

Variable A : Type.
Variable leb : A -> A -> bool.
Hypothesis leb_total : forall a b, leb a b = true \/ leb b a = true.
Hypothesis leb_trans : forall a b c, leb a b = true -> leb b c = true -> leb a c = true.

Lemma insert_sorted_ascending (a : A) (l : list A) :
  ascending leb l -> ascending leb (insert_sorted leb a l).
Proof.
  unfold ascending.
  induction l as [|h t IH]; intros Hs; simpl.
  - repeat constructor.
  - apply StronglySorted_inv in Hs. destruct Hs as [Ht Hh].
    destruct (leb a h) eqn:E.
    + constructor; [now constructor|].
      constructor; [exact E|].
      eapply Forall_impl; [|exact Hh]. intros b Hb. now apply (leb_trans a h b).
    + constructor; [now apply IH|].
      apply Forall_forall. intros b Hb.
      apply (Permutation_in _ (insert_sorted_perm _ leb a t)) in Hb.
      destruct Hb as [<-|Hb].
      * destruct (leb_total a h); congruence.
      * rewrite Forall_forall in Hh. now apply Hh.
Qed.

Lemma sort_ascending (l : list A) : ascending leb (sort leb l).
Proof.
  induction l as [|h t IH]; simpl; [constructor|].
  now apply insert_sorted_ascending.
Qed.

End SortFacts.

(** ** What the group-by produces *)

Lemma monitoring_df_In (raw : list Obs.row) (r : Obs.row) :
  In r (monitoring_df raw) <-> In r raw /\ Obs.date_observed r <> None.
Proof.
  unfold monitoring_df. rewrite filter_In.
  destruct (Obs.date_observed r); simpl; intuition congruence.
Qed.

Lemma rows_of_crop_In (k : string) (df : list Obs.row) (r : Obs.row) :
  In r (rows_of_crop k df) <-> In r df /\ Obs.Crop_id r = k.
Proof. unfold rows_of_crop. now rewrite filter_In, String.eqb_eq. Qed.

Lemma rows_of_crop_key_nonempty (k : string) (df : list Obs.row) :
  In k (map Obs.Crop_id df) -> rows_of_crop k df <> [].
Proof.
  rewrite in_map_iff. intros [r [Hk Hr]] E.
  assert (H : In r (rows_of_crop k df)) by (apply rows_of_crop_In; auto).
  rewrite E in H. destruct H.
Qed.

(** The aggregate has one record per crop id that has a row with a
    parsed date and no other record; the records come in ascending
    order of crop id, without repetition; and each record's group is
    non-empty. *)
Theorem aggregate_keys_are_the_observed_crops (raw : list Obs.row) :
  (forall k, In k (map Agg.Crop_id (agg_monitoring (monitoring_df raw)))
             <-> exists r, In r raw /\ Obs.Crop_id r = k /\ Obs.date_observed r <> None)
  /\ NoDup (map Agg.Crop_id (agg_monitoring (monitoring_df raw)))
  /\ ascending String.leb (map Agg.Crop_id (agg_monitoring (monitoring_df raw)))
  /\ (forall a, In a (agg_monitoring (monitoring_df raw)) ->
                rows_of_crop (Agg.Crop_id a) (monitoring_df raw) <> []).
Proof.
  repeat split.
  - rewrite agg_monitoring_keys, sort_In, (unique_In _ _ string_eqb_spec), in_map_iff.
    intros [r [Hk Hr]]. apply monitoring_df_In in Hr. exists r. tauto.
  - intros [r [Hr [Hk Hd]]].
    rewrite agg_monitoring_keys, sort_In, (unique_In _ _ string_eqb_spec), in_map_iff.
    exists r. split; [exact Hk|]. now apply monitoring_df_In.
  - apply agg_monitoring_keys_NoDup.
  - rewrite agg_monitoring_keys.
    apply sort_ascending; [apply String.leb_total|apply string_leb_trans].
  - intros a Ha. apply agg_monitoring_In in Ha.
    now apply rows_of_crop_key_nonempty.
Qed.

(** Every observation row with a parsed date falls in the group of
    exactly one aggregate record, the one of its crop id. *)
Theorem each_dated_row_in_one_group (raw : list Obs.row) (r : Obs.row) :
  In r raw -> Obs.date_observed r <> None ->
  exists a, In a (agg_monitoring (monitoring_df raw))
            /\ In r (rows_of_crop (Agg.Crop_id a) (monitoring_df raw))
            /\ forall a', In a' (agg_monitoring (monitoring_df raw)) ->
                          In r (rows_of_crop (Agg.Crop_id a') (monitoring_df raw)) ->
                          a' = a.
Proof.
  intros Hr Hd.
  assert (Hm : In r (monitoring_df raw)) by now apply monitoring_df_In.
  exists (agg_group (Obs.Crop_id r, rows_of_crop (Obs.Crop_id r) (monitoring_df raw))).
  repeat split.
  - apply agg_monitoring_In. simpl. split; [now apply in_map|reflexivity].
  - simpl. now apply rows_of_crop_In.
  - intros a' Ha' Hin. apply rows_of_crop_In in Hin. destruct Hin as [_ Hk].
    apply agg_monitoring_In in Ha'. destruct Ha' as [_ Ha'].
    now rewrite Ha', Hk.
Qed.

(** ** The reductions of the aggregator *)

Lemma dropna_In {A} (s : list (option A)) (v : A) : In v (dropna s) <-> In (Some v) s.
Proof.
  induction s as [|[w|] t IH]; simpl.
  - tauto.
  - rewrite IH. intuition congruence.
  - rewrite IH. intuition congruence.
Qed.

Lemma dropna_app {A} (s t : list (option A)) : dropna (s ++ t) = dropna s ++ dropna t.
Proof.
  induction s as [|[w|] s IH]; simpl; [reflexivity| |assumption].
  now rewrite IH.
Qed.

Lemma dropna_nil_iff {A} (s : list (option A)) :
  dropna s = [] <-> forall c, In c s -> c = None.
Proof.
  split; [|apply dropna_all_null].
  intros E [v|] Hc; [|reflexivity].
  apply dropna_In in Hc. rewrite E in Hc. destruct Hc.
Qed.

Lemma column_null_iff {A B} (f : A -> option B) (g : list A) :
  dropna (map f g) = [] <-> forall r, In r g -> f r = None.
Proof.
  rewrite dropna_nil_iff. split.
  - intros H r Hr. apply H. now apply in_map.
  - intros H c Hc. apply in_map_iff in Hc. destruct Hc as [r [<- Hr]]. now apply H.
Qed.

Lemma fold_date_max_spec (ds : list Date) (d0 : Date) :
  In (fold_left date_max ds d0) (d0 :: ds)
  /\ forall d, In d (d0 :: ds) -> date_leb d (fold_left date_max ds d0) = true.
Proof.
  revert d0. induction ds as [|h t IH]; intros d0; simpl.
  - split; [auto|]. intros d [<-|[]].
    destruct (date_leb_total d0 d0); assumption.
  - destruct (IH (date_max d0 h)) as [Hin Hle].
    assert (H0 : date_leb d0 (date_max d0 h) = true).
    { unfold date_max. destruct (date_leb d0 h) eqn:E; [exact E|].
      destruct (date_leb_total d0 d0); assumption. }
    assert (Hh : date_leb h (date_max d0 h) = true).
    { unfold date_max. destruct (date_leb d0 h) eqn:E.
      - destruct (date_leb_total h h); assumption.
      - destruct (date_leb_total d0 h); congruence. }
    split.
    + destruct Hin as [Hin|Hin]; [|auto].
      rewrite <- Hin. unfold date_max. destruct (date_leb d0 h); auto.
    + intros d [<-|[<-|Hd]].
      * eapply date_leb_trans; [exact H0|]. apply Hle. now left.
      * eapply date_leb_trans; [exact Hh|]. apply Hle. now left.
      * apply Hle. now right.
Qed.

Lemma series_max_spec (s : list (option Date)) :
  match series_max s with
  | Some m => In (Some m) s /\ forall d, In (Some d) s -> date_leb d m = true
  | None => forall c, In c s -> c = None
  end.
Proof.
  unfold series_max. destruct (dropna s) as [|d0 ds] eqn:E.
  - now apply dropna_nil_iff.
  - destruct (fold_date_max_spec ds d0) as [Hin Hle]. split.
    + apply dropna_In. now rewrite E.
    + intros d Hd. apply Hle. rewrite <- E. now apply dropna_In.
Qed.

(** The last_observed of an aggregate record is never null: it is the
    date of one of the rows of its group, and no row of the group has
    a later date. *)
Theorem last_observed_is_latest_date (raw : list Obs.row) (a : Agg.row) :
  In a (agg_monitoring (monitoring_df raw)) ->
  exists d,
    Agg.last_observed a = Some d
    /\ (exists r, In r (rows_of_crop (Agg.Crop_id a) (monitoring_df raw))
                  /\ Obs.date_observed r = Some d)
    /\ forall r d', In r (rows_of_crop (Agg.Crop_id a) (monitoring_df raw)) ->
                    Obs.date_observed r = Some d' -> date_leb d' d = true.
Proof.
  intros Ha. apply agg_monitoring_In in Ha. destruct Ha as [Hk Ha].
  set (g := rows_of_crop (Agg.Crop_id a) (monitoring_df raw)) in *.
  assert (E : Agg.last_observed a = series_max (map Obs.date_observed g))
    by (rewrite Ha at 1; reflexivity).
  pose proof (series_max_spec (map Obs.date_observed g)) as S.
  destruct (series_max (map Obs.date_observed g)) as [m|].
  - exists m. destruct S as [Hin Hle]. split; [exact E|]. split.
    + apply in_map_iff in Hin. destruct Hin as [r [Hd Hr]]. now exists r.
    + intros r d' Hr Hd. apply Hle. rewrite <- Hd. now apply in_map.
  - exfalso.
    destruct g as [|r g'] eqn:Eg.
    + now apply (rows_of_crop_key_nonempty _ _ Hk).
    + assert (Hr : In r (rows_of_crop (Agg.Crop_id a) (monitoring_df raw)))
        by (fold g; rewrite Eg; now left).
      apply rows_of_crop_In in Hr. destruct Hr as [Hr _].
      apply monitoring_df_In in Hr. destruct Hr as [_ Hd].
      apply Hd, S. now left.
Qed.

Lemma last_map_Some {B} (l : list B) (d : option B) :
  l <> [] -> last (map Some l) d <> None.
Proof.
  induction l as [|x [|y l'] IH]; intros Hne; [congruence|simpl; congruence|].
  change (last (map Some (x :: y :: l')) d) with (last (map Some (y :: l')) d).
  apply IH. congruence.
Qed.

Lemma series_last_spec {A B} (f : A -> option B) (g : list A) :
  (series_last (map f g) = None <-> forall r, In r g -> f r = None)
  /\ forall pre r post v,
      g = pre ++ r :: post -> f r = Some v ->
      (forall r', In r' post -> f r' = None) ->
      series_last (map f g) = Some v.
Proof.
  unfold series_last. split.
  - destruct (dropna (map f g)) as [|v vs] eqn:E.
    + simpl. split; [intros _; now apply column_null_iff|reflexivity].
    + split.
      * intros H. exfalso. apply (last_map_Some (v :: vs) None); [discriminate|exact H].
      * intros H. apply column_null_iff in H. congruence.
  - intros pre r post v -> Hr Hpost.
    rewrite map_app, dropna_app. simpl. rewrite Hr. simpl.
    rewrite (proj2 (column_null_iff f post) Hpost).
    rewrite map_app. simpl. apply last_last.
Qed.

(** last_stage and last_crop_health are the values of the last row of
    the group, in table order, where the column is not null, whatever
    the dates say; they are null only when the column is null in the
    whole group. *)
Theorem last_stage_is_last_non_null (df : list Obs.row) (a : Agg.row) :
  In a (agg_monitoring df) ->
  (Agg.last_stage a = None
   <-> forall r, In r (rows_of_crop (Agg.Crop_id a) df) -> Obs.stage r = None)
  /\ (Agg.last_crop_health a = None
      <-> forall r, In r (rows_of_crop (Agg.Crop_id a) df) -> Obs.crop_health r = None)
  /\ forall pre r post,
      rows_of_crop (Agg.Crop_id a) df = pre ++ r :: post ->
      (forall s, Obs.stage r = Some s ->
                 (forall r', In r' post -> Obs.stage r' = None) ->
                 Agg.last_stage a = Some s)
      /\ (forall h, Obs.crop_health r = Some h ->
                    (forall r', In r' post -> Obs.crop_health r' = None) ->
                    Agg.last_crop_health a = Some h).
Proof.
  intros Ha. apply agg_monitoring_In in Ha. destruct Ha as [_ Ha].
  set (g := rows_of_crop (Agg.Crop_id a) df) in *.
  assert (Es : Agg.last_stage a = series_last (map Obs.stage g))
    by (rewrite Ha at 1; reflexivity).
  assert (Eh : Agg.last_crop_health a = series_last (map Obs.crop_health g))
    by (rewrite Ha at 1; reflexivity).
  rewrite Es, Eh.
  destruct (series_last_spec Obs.stage g) as [Sn Sl].
  destruct (series_last_spec Obs.crop_health g) as [Hn Hl].
  split; [exact Sn|]. split; [exact Hn|].
  intros pre r post Eg. split.
  - intros s Hs Hpost. now apply (Sl pre r post).
  - intros h Hh Hpost. now apply (Hl pre r post).
Qed.

(** ** The mean *)






(** ** One more observation *)

Lemma series_count_snoc {A} (s : list (option A)) (c : option A) :
  series_count (s ++ [c]) = series_count s + (if notna c then 1 else 0).
Proof.
  unfold series_count. rewrite dropna_app, length_app.
  destruct c; simpl; lia.
Qed.

Lemma series_last_snoc {A} (s : list (option A)) (c : option A) :
  series_last (s ++ [c]) = match c with Some v => Some v | None => series_last s end.
Proof.
  unfold series_last. rewrite dropna_app. destruct c as [v|]; simpl.
  - rewrite map_app. simpl. apply last_last.
  - now rewrite app_nil_r.
Qed.

Lemma series_max_snoc (s : list (option Date)) (c : option Date) :
  series_max (s ++ [c])
  = match c with
    | Some d => Some (match series_max s with Some m => date_max m d | None => d end)
    | None => series_max s
    end.
Proof.
  unfold series_max. rewrite dropna_app. destruct c as [d|]; simpl.
  - destruct (dropna s) as [|d0 ds]; simpl; [reflexivity|].
    now rewrite fold_left_app.
  - now rewrite app_nil_r.
Qed.

Lemma rows_of_crop_snoc (df : list Obs.row) (r : Obs.row) :
  rows_of_crop (Obs.Crop_id r) (df ++ [r]) = rows_of_crop (Obs.Crop_id r) df ++ [r].
Proof.
  unfold rows_of_crop. rewrite filter_app. simpl. now rewrite String.eqb_refl.
Qed.

(** Appending an observation row to the table updates the record of
    its crop incrementally.  With [old] the record computed from the
    crop's rows so far (null fields and count 0 when it had none): the
    count grows by one when the row has a fid, last_stage and
    last_crop_health become the row's values unless they are null, and
    last_observed becomes the later of the old date and the row's. *)
Theorem appended_observation_updates_its_record (df : list Obs.row) (r : Obs.row) :
  let old := agg_group (Obs.Crop_id r, rows_of_crop (Obs.Crop_id r) df) in
  exists new,
    find (fun a => String.eqb (Obs.Crop_id r) (Agg.Crop_id a)) (agg_monitoring (df ++ [r]))
    = Some new
    /\ Agg.observations_count new
       = Agg.observations_count old + (if notna (Obs.fid r) then 1 else 0)
    /\ Agg.last_stage new
       = match Obs.stage r with Some s => Some s | None => Agg.last_stage old end
    /\ Agg.last_crop_health new
       = match Obs.crop_health r with Some h => Some h | None => Agg.last_crop_health old end
    /\ Agg.last_observed new
       = match Obs.date_observed r with
         | Some d => Some (match Agg.last_observed old with
                           | Some m => date_max m d
                           | None => d
                           end)
         | None => Agg.last_observed old
         end.
Proof.
  cbv zeta. eexists. split.
  - apply agg_monitoring_find. rewrite map_app. apply in_or_app. right. now left.
  - rewrite rows_of_crop_snoc. simpl. rewrite !map_app. simpl.
    rewrite series_count_snoc, !series_last_snoc, series_max_snoc.
    repeat split.
Qed.

(** ** An observation only concerns its crop *)

Lemma agg_monitoring_no_key (k : string) (df : list Obs.row) :
  ~ In k (map Obs.Crop_id df) ->
  find (fun a => String.eqb k (Agg.Crop_id a)) (agg_monitoring df) = None.
Proof.
  intros Hn. apply (find_no_key _ Agg.Crop_id).
  now rewrite agg_monitoring_keys, sort_In, (unique_In _ _ string_eqb_spec).
Qed.

Lemma agg_find_by_rows (k : string) (df : list Obs.row) :
  find (fun a => String.eqb k (Agg.Crop_id a)) (agg_monitoring df)
  = match rows_of_crop k df with
    | [] => None
    | _ :: _ => Some (agg_group (k, rows_of_crop k df))
    end.
Proof.
  destruct (rows_of_crop k df) as [|r g] eqn:Eg.
  - apply agg_monitoring_no_key. intros Hk.
    now apply rows_of_crop_key_nonempty in Hk.
  - rewrite <- Eg. apply agg_monitoring_find, rows_of_crop_nonempty.
    rewrite Eg. discriminate.
Qed.

(** The merged rows of an id depend on the observations of that crop
    alone: two observation tables (as held after coercion) whose dated
    rows of crop [k] are the same, in the same order, give the same
    merged rows for the centroids with id [k], whatever else the
    tables contain. *)
Theorem merged_row_depends_only_on_own_crop {Geometry}
        (planting : list (Planting.row Geometry))
        (raw1 raw2 : list Obs.row) (k : string) :
  rows_of_crop k (monitoring_df raw1) = rows_of_crop k (monitoring_df raw2) ->
  filter (fun m => String.eqb (Merged.id m) k) (merged_gdf planting raw1)
  = filter (fun m => String.eqb (Merged.id m) k) (merged_gdf planting raw2).
Proof.
  intros Hrows. rewrite !merged_gdf_rows.
  induction planting as [|c t IH]; [reflexivity|].
  cbn [map filter]. rewrite IH.
  change (Merged.id (fillna (join_row c ?x))) with (Planting.id c).
  destruct (String.eqb (Planting.id c) k) eqn:E; [|reflexivity].
  apply String.eqb_eq in E. subst k.
  now rewrite !agg_find_by_rows, Hrows.
Qed.

(** ** Rendering a date *)

Lemma string_length_append (s t : string) :
  String.length (String.append s t) = (String.length s + String.length t)%nat.
Proof. induction s as [|c s IH]; simpl; [reflexivity|now rewrite IH]. Qed.

Lemma string_append_inj (s1 s2 t1 t2 : string) :
  String.length s1 = String.length s2 ->
  String.append s1 t1 = String.append s2 t2 -> s1 = s2 /\ t1 = t2.
Proof.
  revert s2. induction s1 as [|c s1 IH]; intros [|c' s2] Hl E; simpl in *;
    try discriminate.
  - auto.
  - injection E as -> E. injection Hl as Hl.
    destruct (IH s2 Hl E) as [-> ->]. auto.
Qed.

Lemma zero_padded_length (w : nat) (n : Z) : String.length (zero_padded w n) = w.
Proof.
  revert n. induction w as [|w IH]; intros n; simpl; [reflexivity|].
  rewrite string_length_append, IH. simpl. lia.
Qed.

Lemma digit_inj (n m : Z) : digit n = digit m -> n mod 10 = m mod 10.
Proof.
  unfold digit. intros E0.
  assert (E : N_of_ascii (ascii_of_N (48 + Z.to_N (n mod 10)))
              = N_of_ascii (ascii_of_N (48 + Z.to_N (m mod 10))))
    by exact (f_equal (fun s => match s with
                                | String c _ => N_of_ascii c
                                | EmptyString => 0%N
                                end) E0).
  clear E0.
  pose proof (Z.mod_pos_bound n 10 ltac:(lia)) as Hn.
  pose proof (Z.mod_pos_bound m 10 ltac:(lia)) as Hm.
  assert (Bn : (Z.to_N (n mod 10) < 10)%N)
    by (change 10%N with (Z.to_N 10); apply Z2N.inj_lt; lia).
  assert (Bm : (Z.to_N (m mod 10) < 10)%N)
    by (change 10%N with (Z.to_N 10); apply Z2N.inj_lt; lia).
  rewrite !N_ascii_embedding in E by lia.
  apply Z2N.inj; lia.
Qed.

Lemma zero_padded_inj (w : nat) (n m : Z) :
  0 <= n < 10 ^ Z.of_nat w -> 0 <= m < 10 ^ Z.of_nat w ->
  zero_padded w n = zero_padded w m -> n = m.
Proof.
  revert n m. induction w as [|w IH]; intros n m Hn Hm E.
  - simpl in Hn, Hm. lia.
  - rewrite Nat2Z.inj_succ, Z.pow_succ_r in Hn, Hm by lia.
    simpl in E. apply string_append_inj in E; [|now rewrite !zero_padded_length].
    destruct E as [Eh Ed]. apply digit_inj in Ed.
    assert (Hq : n / 10 = m / 10).
    { apply IH; [| |exact Eh].
      - split; [apply Z.div_pos; lia|apply Z.div_lt_upper_bound; lia].
      - split; [apply Z.div_pos; lia|apply Z.div_lt_upper_bound; lia]. }
    rewrite (Z.div_mod n 10), (Z.div_mod m 10) by lia. lia.
Qed.

Lemma date_str_length (d : Date) : String.length (date_str d) = 10%nat.
Proof.
  unfold date_str. rewrite !string_length_append, !zero_padded_length. reflexivity.
Qed.

(** The text of a date is always ten characters long, never the
    placeholder, and two different dates in the range of
    [datetime.date] never print alike. *)
Theorem date_str_is_faithful (a b : Date) :
  date_in_range a -> date_in_range b ->
  String.length (date_str a) = 10%nat
  /\ date_str a <> "N/A"
  /\ (date_str a = date_str b -> a = b).
Proof.
  intros [Hya [Hma Hda]] [Hyb [Hmb Hdb]]. split; [apply date_str_length|]. split.
  - intros E. pose proof (date_str_length a) as L. rewrite E in L. discriminate L.
  - unfold date_str. intros E.
    apply string_append_inj in E; [|now rewrite !zero_padded_length].
    destruct E as [Ey E].
    apply (string_append_inj "-" "-") in E; [|reflexivity]. destruct E as [_ E].
    apply string_append_inj in E; [|now rewrite !zero_padded_length].
    destruct E as [Em E].
    apply (string_append_inj "-" "-") in E; [|reflexivity]. destruct E as [_ Ed].
    apply zero_padded_inj in Ey; [|simpl; lia|simpl; lia].
    apply zero_padded_inj in Em; [|simpl; lia|simpl; lia].
    apply zero_padded_inj in Ed; [|simpl; lia|simpl; lia].
    destruct a, b. simpl in *. congruence.
Qed.

(** ** The merged table after the fill *)

Lemma dated_group_has_max (k : string) (raw : list Obs.row) :
  rows_of_crop k (monitoring_df raw) <> [] ->
  series_max (map Obs.date_observed (rows_of_crop k (monitoring_df raw))) <> None.
Proof.
  intros Hne E.
  pose proof (series_max_spec
                (map Obs.date_observed (rows_of_crop k (monitoring_df raw)))) as S.
  rewrite E in S.
  destruct (rows_of_crop k (monitoring_df raw)) as [|r g] eqn:Eg; [congruence|].
  assert (Hr : In r (rows_of_crop k (monitoring_df raw))) by (rewrite Eg; now left).
  apply rows_of_crop_In in Hr. destruct Hr as [Hr _].
  apply monitoring_df_In in Hr. destruct Hr as [_ Hd].
  apply Hd, S. now left.
Qed.

Lemma series_count_nonneg {A} (s : list (option A)) : 0 <= series_count s.
Proof. unfold series_count. lia. Qed.

(** After the fill no merged row has a null avg_height, last_stage,
    last_crop_health or observations_count; the count is not
    negative, so the popup's [int(...)] never meets a NaN, which it
    would on the unfilled row of an unmatched centroid. *)
Theorem merged_summary_columns_never_null {Geometry}
        (planting : list (Planting.row Geometry)) (raw : list Obs.row)
        (m : Merged.row Geometry) :
  In m (merged_gdf planting raw) ->
  Merged.avg_height m <> None
  /\ Merged.last_stage m <> None
  /\ Merged.last_crop_health m <> None
  /\ (exists n, Merged.observations_count m = Some n /\ 0 <= n
                /\ popup_observations m = Some (NilZero.string_of_int (Z.to_int n)))
  /\ popup_observations (join_row (planting_of m) None) = None.
Proof.
  intros Hm. apply merged_row_inv in Hm. destruct Hm as [_ Hm].
  destruct (find _ _) as [a|] eqn:Ef in Hm.
  - apply find_some in Ef. destruct Ef as [Ha _].
    apply agg_monitoring_In in Ha. destruct Ha as [_ Ha].
    rewrite Hm. simpl.
    split; [destruct (Agg.avg_height a); discriminate|].
    split; [destruct (Agg.last_stage a); discriminate|].
    split; [destruct (Agg.last_crop_health a); discriminate|].
    split; [|reflexivity].
    exists (Agg.observations_count a). repeat split.
    rewrite Ha. simpl. apply series_count_nonneg.
  - rewrite Hm. simpl. repeat split; try discriminate.
    exists 0. repeat split. lia.
Qed.

Lemma merged_row_observed_cases {Geometry}
        (planting : list (Planting.row Geometry)) (raw : list Obs.row)
        (m : Merged.row Geometry) :
  In m (merged_gdf planting raw) ->
  (rows_of_crop (Merged.id m) (monitoring_df raw) <> [] ->
   Merged.Crop_id m = Some (Merged.id m) /\ Merged.last_observed m <> None)
  /\ (rows_of_crop (Merged.id m) (monitoring_df raw) = [] ->
      Merged.Crop_id m = None /\ Merged.last_observed m = None)
  /\ (popup_date_observed m = "N/A"
      <-> rows_of_crop (Merged.id m) (monitoring_df raw) = []).
Proof.
  intros Hm.
  assert (Hmatched : rows_of_crop (Merged.id m) (monitoring_df raw) <> [] ->
                     Merged.Crop_id m = Some (Merged.id m)
                     /\ Merged.last_observed m <> None).
  { intros Hne. pose proof (merged_row_matched _ _ _ _ Hm Hne) as E.
    split; [rewrite E at 1; reflexivity|].
    rewrite E. simpl. now apply dated_group_has_max. }
  assert (Hun : rows_of_crop (Merged.id m) (monitoring_df raw) = [] ->
                Merged.Crop_id m = None /\ Merged.last_observed m = None).
  { intros He.
    assert (Hn : ~ In (Merged.id m)
                   (map Agg.Crop_id (agg_monitoring (monitoring_df raw)))).
    { rewrite agg_monitoring_keys, sort_In, (unique_In _ _ string_eqb_spec).
      intros Hk. now apply rows_of_crop_key_nonempty in Hk. }
    rewrite (merged_row_unmatched _ _ _ _ Hm Hn). split; reflexivity. }
  split; [exact Hmatched|]. split; [exact Hun|].
  split.
  - intros Hp.
    destruct (rows_of_crop (Merged.id m) (monitoring_df raw)) as [|r g] eqn:Eg;
      [reflexivity|].
    exfalso. destruct Hmatched as [_ Hl]; [discriminate|].
    unfold popup_date_observed in Hp.
    destruct (Merged.last_observed m) as [d|]; [|congruence].
    simpl in Hp. pose proof (date_str_length d) as L. rewrite Hp in L. discriminate L.
  - intros He. destruct (Hun He) as [_ Hl].
    unfold popup_date_observed. now rewrite Hl.
Qed.

(** A merged row is matched exactly when its id has an observation
    with a parsed date: then Crop_id repeats the id and last_observed
    is set; otherwise both are null.  The popup shows the placeholder
    for the date in the second case and only then. *)
Theorem popup_placeholder_iff_unobserved {Geometry}
        (planting : list (Planting.row Geometry)) (raw : list Obs.row)
        (m : Merged.row Geometry) :
  In m (merged_gdf planting raw) ->
  (rows_of_crop (Merged.id m) (monitoring_df raw) <> [] ->
   Merged.Crop_id m = Some (Merged.id m) /\ Merged.last_observed m <> None)
  /\ (rows_of_crop (Merged.id m) (monitoring_df raw) = [] ->
      Merged.Crop_id m = None /\ Merged.last_observed m = None)
  /\ (popup_date_observed m = "N/A"
      <-> rows_of_crop (Merged.id m) (monitoring_df raw) = []).
Proof. apply merged_row_observed_cases. Qed.


(** ** The filter cascade as a whole *)

Lemma filter_all_true {A} (l : list A) : filter (fun _ => true) l = l.
Proof. induction l as [|h t IH]; simpl; [reflexivity|now rewrite IH]. Qed.

Lemma filter_filter {A} (p q : A -> bool) (l : list A) :
  filter p (filter q l) = filter (fun a => q a && p a) l.
Proof.
  induction l as [|h t IH]; simpl; [reflexivity|].
  destruct (q h); simpl; [destruct (p h)|]; now rewrite IH.
Qed.

Section CascadeFacts.

Variable Geometry : Type.
Variable column : Merged.row Geometry -> option string.
Variable level : string -> list (Merged.row Geometry) -> list (Merged.row Geometry).
Hypothesis level_def : forall selected df,
    level selected df
    = if negb (String.eqb selected "All")
      then filter (fun r => col_eq (column r) selected) df
      else df.

Lemma level_as_filter (selected : string) (df : list (Merged.row Geometry)) :
  level selected df = filter (fun r => passes selected (column r)) df.
Proof.
  rewrite level_def. unfold passes.
  destruct (String.eqb selected "All"); simpl; [now rewrite filter_all_true|reflexivity].
Qed.

(** A value read off the column of a table keeps at least one row of it. *)
Lemma level_offered_nonempty (selected : string) (df : list (Merged.row Geometry)) :
  In selected (unique String.eqb (dropna (map column df))) -> level selected df <> [].
Proof.
  rewrite (unique_In _ _ string_eqb_spec), dropna_In, in_map_iff.
  intros [r [Hc Hr]] E.
  assert (Hin : In r (level selected df)).
  { rewrite level_as_filter, filter_In. split; [exact Hr|].
    unfold passes. rewrite Hc. simpl. rewrite String.eqb_refl. apply orb_true_r. }
  rewrite E in Hin. destruct Hin.
Qed.

End CascadeFacts.

(** The cascade is one filter on the merged table: it keeps, in order,
    the rows that pass the three selections, so the order in which the
    levels are applied does not matter and nothing is ever added. *)
Theorem cascade_is_one_filter {Geometry} (merged : list (Merged.row Geometry))
        (crop variety stage : string) :
  filtered_gdf merged crop variety stage
  = filter (fun r => passes crop (Merged.Crop_Class r)
                     && passes variety (Merged.Crop_Varie r)
                     && passes stage (Merged.last_stage r))
           merged
  /\ filtered_gdf merged crop variety stage
     = filter_crop_class crop (filter_crop_variety variety (filter_stage stage merged))
  /\ (List.length (filtered_gdf merged crop variety stage) <= List.length merged)%nat
  /\ forall r, In r (filtered_gdf merged crop variety stage) ->
               In r merged
               /\ (crop = "All" \/ Merged.Crop_Class r = Some crop)
               /\ (variety = "All" \/ Merged.Crop_Varie r = Some variety)
               /\ (stage = "All" \/ Merged.last_stage r = Some stage).
Proof.
  assert (Hc := level_as_filter Geometry Merged.Crop_Class filter_crop_class
                                (fun _ _ => eq_refl)).
  assert (Hv := level_as_filter Geometry Merged.Crop_Varie filter_crop_variety
                                (fun _ _ => eq_refl)).
  assert (Hs := level_as_filter Geometry Merged.last_stage filter_stage
                                (fun _ _ => eq_refl)).
  assert (E : filtered_gdf merged crop variety stage
              = filter (fun r => passes crop (Merged.Crop_Class r)
                                 && passes variety (Merged.Crop_Varie r)
                                 && passes stage (Merged.last_stage r)) merged).
  { unfold filtered_gdf. rewrite Hs, Hv, Hc, !filter_filter.
    apply filter_ext. intros r. now rewrite andb_assoc. }
  split; [exact E|]. split; [|split].
  - rewrite E, Hc, Hv, Hs, !filter_filter. apply filter_ext.
    intros r. destruct (passes crop _), (passes variety _), (passes stage _); reflexivity.
  - rewrite E. apply filter_length_le.
  - intros r Hr. rewrite E in Hr. apply filter_In in Hr. destruct Hr as [Hin Hp].
    apply andb_true_iff in Hp. destruct Hp as [Hp Hst].
    apply andb_true_iff in Hp. destruct Hp as [Hcl Hva].
    unfold passes in *.
    rewrite orb_true_iff, String.eqb_eq, col_eq_true in Hcl, Hva, Hst. tauto.
Qed.

Lemma crop_varieties_scoped {Geometry} (merged : list (Merged.row Geometry))
      (selected_crop : string) :
  crop_varieties merged selected_crop
  = unique String.eqb
           (dropna (map Merged.Crop_Varie (filter_crop_class selected_crop merged))).
Proof.
  unfold crop_varieties, filter_crop_class.
  now destruct (String.eqb selected_crop "All").
Qed.

(** A selection taken from the choices the script offers never empties
    the map: a class among crop_classes, then a variety among the
    varieties offered for that class, then a stage among the stages of
    what is left, always keep at least one row. *)
Theorem offered_choices_keep_a_row {Geometry} (merged : list (Merged.row Geometry))
        (crop variety stage : string) :
  (In crop (crop_classes merged) -> filter_crop_class crop merged <> [])
  /\ (In variety (crop_varieties merged crop) ->
      filter_crop_variety variety (filter_crop_class crop merged) <> [])
  /\ (In stage (stages (filter_crop_variety variety (filter_crop_class crop merged))) ->
      filtered_gdf merged crop variety stage <> []).
Proof.
  split; [|split].
  - apply (level_offered_nonempty _ Merged.Crop_Class filter_crop_class).
    reflexivity.
  - rewrite crop_varieties_scoped.
    apply (level_offered_nonempty _ Merged.Crop_Varie filter_crop_variety).
    reflexivity.
  - apply (level_offered_nonempty _ Merged.last_stage filter_stage).
    reflexivity.
Qed.

(** The choice lists hold no value twice; the varieties offered under
    a class are the varieties of the rows of that class and are all
    among the varieties offered under "All". *)
Theorem choice_lists_are_distinct_and_scoped {Geometry}
        (merged : list (Merged.row Geometry)) (crop : string) :
  NoDup (crop_classes merged)
  /\ NoDup (crop_varieties merged crop)
  /\ NoDup (stages merged)
  /\ (forall v, In v (crop_varieties merged crop)
                <-> exists r, In r (filter_crop_class crop merged)
                              /\ Merged.Crop_Varie r = Some v)
  /\ incl (crop_varieties merged crop) (crop_varieties merged "All").
Proof.
  assert (Hin : forall v, In v (crop_varieties merged crop)
                          <-> exists r, In r (filter_crop_class crop merged)
                                        /\ Merged.Crop_Varie r = Some v).
  { intros v. rewrite crop_varieties_scoped, (unique_In _ _ string_eqb_spec), dropna_In,
      in_map_iff.
    split; intros [r [H1 H2]]; exists r; auto. }
  split; [apply unique_NoDup, string_eqb_spec|].
  split; [rewrite crop_varieties_scoped; apply unique_NoDup, string_eqb_spec|].
  split; [apply unique_NoDup, string_eqb_spec|].
  split; [exact Hin|].
  intros v Hv. apply Hin in Hv. destruct Hv as [r [Hr Hv]].
  unfold crop_varieties. simpl.
  rewrite (unique_In _ _ string_eqb_spec), dropna_In, in_map_iff.
  exists r. split; [exact Hv|].
  unfold filter_crop_class in Hr.
  destruct (negb (String.eqb crop "All")); [now apply filter_In in Hr|exact Hr].
Qed.

(** On the pipeline's merged table every row has a stage value, so
    each row left by the class and variety levels is shown under one
    of the offered stages: selecting that stage keeps it. *)
Theorem every_row_has_a_stage_choice {Geometry}
        (planting : list (Planting.row Geometry)) (raw : list Obs.row)
        (crop variety : string) (r : Merged.row Geometry) :
  In r (filter_crop_variety variety (filter_crop_class crop (merged_gdf planting raw))) ->
  exists stage,
    Merged.last_stage r = Some stage
    /\ In stage (stages (filter_crop_variety variety
                           (filter_crop_class crop (merged_gdf planting raw))))
    /\ In r (filtered_gdf (merged_gdf planting raw) crop variety stage).
Proof.
  intros Hr.
  assert (Hm : In r (merged_gdf planting raw)).
  { rewrite (level_as_filter _ Merged.Crop_Varie filter_crop_variety (fun _ _ => eq_refl)),
      (level_as_filter _ Merged.Crop_Class filter_crop_class (fun _ _ => eq_refl)) in Hr.
    apply filter_In in Hr. destruct Hr as [Hr _]. now apply filter_In in Hr. }
  apply merged_row_inv in Hm. destruct Hm as [_ Hm].
  destruct (Merged.last_stage r) as [s|] eqn:Es.
  - exists s. split; [reflexivity|]. split.
    + unfold stages. rewrite (unique_In _ _ string_eqb_spec), dropna_In, in_map_iff.
      now exists r.
    + unfold filtered_gdf.
      rewrite (level_as_filter _ Merged.last_stage filter_stage (fun _ _ => eq_refl)).
      apply filter_In. split; [exact Hr|].
      unfold passes. rewrite Es. simpl. rewrite String.eqb_refl. apply orb_true_r.
  - exfalso. rewrite Hm in Es. simpl in Es.
    destruct (match find _ _ with Some a => Agg.last_stage a | None => None end);
      discriminate Es.
Qed.

(** ** The Map view *)

Lemma filtered_gdf_length_le {Geometry} (merged : list (Merged.row Geometry))
      (crop variety stage : string) :
  (List.length (filtered_gdf merged crop variety stage) <= List.length merged)%nat.
Proof.
  unfold filtered_gdf.
  rewrite (level_as_filter _ Merged.last_stage filter_stage (fun _ _ => eq_refl)),
    (level_as_filter _ Merged.Crop_Varie filter_crop_variety (fun _ _ => eq_refl)),
    (level_as_filter _ Merged.Crop_Class filter_crop_class (fun _ _ => eq_refl)).
  eapply Nat.le_trans; [apply filter_length_le|].
  eapply Nat.le_trans; [apply filter_length_le|]. apply filter_length_le.
Qed.

Lemma markers_Some {Geometry} (geom_centroid : Geometry -> Point)
      (filtered : list (Merged.row Geometry)) (ms : list (Q * Q * string)) :
  markers geom_centroid filtered = Some ms ->
  List.length ms = List.length filtered
  /\ map (fun mk => (Some (fst (fst mk)), Some (snd (fst mk)))) ms
     = map (fun row => (y (centroid geom_centroid row), x (centroid geom_centroid row)))
           filtered.
Proof.
  revert ms. induction filtered as [|row rest IH]; intros ms; simpl.
  - intros E. injection E as <-. split; reflexivity.
  - unfold marker.
    destruct (y (centroid geom_centroid row)) as [lat|]; [|discriminate].
    destruct (x (centroid geom_centroid row)) as [lon|]; [|discriminate].
    destruct (markers geom_centroid rest) as [ms'|]; [|discriminate].
    simpl. intros E. injection E as <-.
    destruct (IH ms' eq_refl) as [Hl Hm]. simpl. now rewrite Hl, Hm.
Qed.

Lemma markers_None {Geometry} (geom_centroid : Geometry -> Point)
      (filtered : list (Merged.row Geometry)) :
  markers geom_centroid filtered = None
  <-> exists row, In row filtered
                  /\ (y (centroid geom_centroid row) = None
                      \/ x (centroid geom_centroid row) = None).
Proof.
  induction filtered as [|row rest IH]; simpl.
  - split; [discriminate|]. intros [row [[] _]].
  - unfold marker.
    destruct (y (centroid geom_centroid row)) as [lat|] eqn:Ey.
    + destruct (x (centroid geom_centroid row)) as [lon|] eqn:Ex.
      * destruct (markers geom_centroid rest) as [ms'|]; simpl.
        -- split; [discriminate|].
           intros [r [[<-|Hr] Hn]].
           ++ rewrite Ey, Ex in Hn. destruct Hn; discriminate.
           ++ assert (H : Some ms' = None) by (apply IH; now exists r).
              discriminate H.
        -- split; [|reflexivity]. intros _.
           destruct (proj1 IH eq_refl) as [r [Hr Hn]]. exists r. auto.
      * split; [|reflexivity]. intros _. exists row. auto.
    + split; [|reflexivity]. intros _. exists row. auto.
Qed.

(** The marker loop fails exactly when some filtered row's centroid
    lacks a coordinate.  When it succeeds there is one marker per
    filtered row, at the row's centroid, never more markers than
    planting centroids; with "All" selected at the three levels these
    are the centroids of the planting table's geometries, in table
    order. *)
Theorem map_marks_every_filtered_row {Geometry} (geom_centroid : Geometry -> Point)
        (planting : list (Planting.row Geometry)) (raw : list Obs.row) :
  (forall filtered : list (Merged.row Geometry),
      markers geom_centroid filtered = None
      <-> exists row, In row filtered
                      /\ (y (centroid geom_centroid row) = None
                          \/ x (centroid geom_centroid row) = None))
  /\ (forall crop variety stage ms,
         markers geom_centroid (filtered_gdf (merged_gdf planting raw) crop variety stage)
         = Some ms ->
         List.length ms
         = List.length (filtered_gdf (merged_gdf planting raw) crop variety stage)
         /\ (List.length ms <= List.length planting)%nat)
  /\ (forall ms,
         markers geom_centroid (filtered_gdf (merged_gdf planting raw) "All" "All" "All")
         = Some ms ->
         map (fun mk => (Some (fst (fst mk)), Some (snd (fst mk)))) ms
         = map (fun c => (y (geom_centroid (Planting.geometry c)),
                          x (geom_centroid (Planting.geometry c))))
               planting).
Proof.
  split; [intros filtered; apply markers_None|]. split.
  - intros crop variety stage ms E. apply markers_Some in E. destruct E as [Hl _].
    split; [exact Hl|]. rewrite Hl.
    eapply Nat.le_trans; [apply filtered_gdf_length_le|].
    rewrite merged_gdf_rows, length_map. apply Nat.le_refl.
  - intros ms E.
    change (filtered_gdf (merged_gdf planting raw) "All" "All" "All")
      with (merged_gdf planting raw) in E.
    apply markers_Some in E. destruct E as [_ Hm]. rewrite Hm.
    rewrite merged_gdf_rows, map_map. reflexivity.
Qed.


(** ** The Progress view *)

Lemma find_app_first {A} (p : A -> bool) (pre : list A) (m : A) (post : list A) :
  (forall r, In r pre -> p r = false) -> p m = true ->
  find p (pre ++ m :: post) = Some m.
Proof.
  intros Hpre Hm. induction pre as [|h t IH]; simpl.
  - now rewrite Hm.
  - rewrite (Hpre h (or_introl eq_refl)). apply IH.
    intros r Hr. apply Hpre. now right.
Qed.

Lemma check_progress_first_match {Geometry} (merged : list (Merged.row Geometry))
      (monitoring : list Obs.row) (selected_plot : string) :
  check_progress merged monitoring selected_plot
  = match first_plot_row merged selected_plot with
    | None => RaisesIndexError
    | Some m =>
        match rows_of_crop (Merged.id m) monitoring with
        | [] => Warning "No monitoring data available for this Plot ID."
        | _ :: _ => Chart (progress_agg (rows_of_crop (Merged.id m) monitoring))
        end
    end.
Proof.
  unfold check_progress, first_plot_row.
  induction merged as [|m t IH]; simpl; [reflexivity|].
  destruct (col_eq (Merged.Plot_ID m) selected_plot); simpl; [|exact IH].
  unfold rows_of_crop. now destruct (filter _ monitoring).
Qed.

(** The Progress page fails on its lookup exactly when no merged row
    carries the selected plot id, which cannot happen for a plot taken
    from the list it offers; otherwise only the first row with that
    plot id counts: the page warns when that row's id has no
    observation and charts the per-date table of its observations
    when it has. *)
Theorem progress_page_uses_first_matching_plot {Geometry}
        (merged : list (Merged.row Geometry)) (monitoring : list Obs.row)
        (selected_plot : string) :
  (check_progress merged monitoring selected_plot = RaisesIndexError
   <-> forall r, In r merged -> Merged.Plot_ID r <> Some selected_plot)
  /\ (In selected_plot (plot_ids merged) ->
      check_progress merged monitoring selected_plot <> RaisesIndexError)
  /\ forall pre m post,
      merged = pre ++ m :: post ->
      (forall r, In r pre -> Merged.Plot_ID r <> Some selected_plot) ->
      Merged.Plot_ID m = Some selected_plot ->
      check_progress merged monitoring selected_plot
      = match rows_of_crop (Merged.id m) monitoring with
        | [] => Warning "No monitoring data available for this Plot ID."
        | _ :: _ => Chart (progress_agg (rows_of_crop (Merged.id m) monitoring))
        end.
Proof.
  assert (Hraise : check_progress merged monitoring selected_plot = RaisesIndexError
                   <-> forall r, In r merged -> Merged.Plot_ID r <> Some selected_plot).
  { rewrite check_progress_first_match. unfold first_plot_row.
    destruct (find _ merged) as [m|] eqn:Ef.
    - split.
      + intros H. destruct (rows_of_crop _ _); discriminate H.
      + intros H. apply find_some in Ef. destruct Ef as [Hin Hc].
        apply col_eq_true in Hc. now apply H in Hin.
    - split; [|reflexivity]. intros _ r Hr Hc.
      apply (find_none _ _ Ef) in Hr. apply col_eq_true in Hc. congruence. }
  split; [exact Hraise|]. split.
  - unfold plot_ids.
    rewrite (unique_In _ _ string_eqb_spec), dropna_In, in_map_iff.
    intros [r [Hc Hr]] E. exact (proj1 Hraise E r Hr Hc).
  - intros pre m post -> Hpre Hm.
    rewrite check_progress_first_match. unfold first_plot_row.
    assert (Ef : find (fun r => col_eq (Merged.Plot_ID r) selected_plot) (pre ++ m :: post)
                 = Some m).
    { apply find_app_first; [|now apply col_eq_true].
      intros r Hr. destruct (col_eq (Merged.Plot_ID r) selected_plot) eqn:Ep; [|reflexivity].
      apply col_eq_true in Ep. now apply Hpre in Hr. }
    now rewrite Ef.
Qed.

(** On the pipeline's own tables the two pages agree: for the row the
    Progress page resolves, it shows the warning exactly when the
    Map popup of that row prints N/A for the date, that is when the
    row was not matched by the join. *)
Theorem progress_warning_iff_popup_placeholder {Geometry}
        (planting : list (Planting.row Geometry)) (raw : list Obs.row)
        (selected_plot : string) (m : Merged.row Geometry) :
  first_plot_row (merged_gdf planting raw) selected_plot = Some m ->
  (check_progress (merged_gdf planting raw) (monitoring_df raw) selected_plot
   = Warning "No monitoring data available for this Plot ID."
   <-> popup_date_observed m = "N/A")
  /\ (popup_date_observed m = "N/A" <-> Merged.Crop_id m = None)
  /\ (popup_date_observed m <> "N/A" ->
      check_progress (merged_gdf planting raw) (monitoring_df raw) selected_plot
      = Chart (progress_agg (rows_of_crop (Merged.id m) (monitoring_df raw)))).
Proof.
  intros Ef. rewrite check_progress_first_match, Ef.
  apply find_some in Ef. destruct Ef as [Hin _].
  destruct (merged_row_observed_cases planting raw m Hin) as [Hmat [Hun Hpop]].
  destruct (rows_of_crop (Merged.id m) (monitoring_df raw)) as [|r g] eqn:Eg.
  - destruct (Hun eq_refl) as [Hc _]. split; [|split].
    + split; intros _; [now apply Hpop|reflexivity].
    + split; intros _; [exact Hc|now apply Hpop].
    + intros H. exfalso. apply H. now apply Hpop.
  - destruct Hmat as [Hc _]; [discriminate|]. split; [|split].
    + split; [discriminate|]. intros H. apply Hpop in H. discriminate H.
    + split; intros H; [apply Hpop in H; discriminate H|congruence].
    + reflexivity.
Qed.

(** ** The per-date table *)

Lemma progress_agg_dates (df : list Obs.row) :
  map Progress.date_observed (progress_agg df)
  = sort date_leb (unique date_eqb (dropna (map Obs.date_observed df))).
Proof.
  unfold progress_agg, groupby_date_observed.
  rewrite !map_map. simpl. apply map_id.
Qed.

Lemma progress_agg_date_In (df : list Obs.row) (d : Date) :
  In d (map Progress.date_observed (progress_agg df))
  <-> exists r, In r df /\ Obs.date_observed r = Some d.
Proof.
  rewrite progress_agg_dates, sort_In, (unique_In _ _ date_eqb_spec), dropna_In,
    in_map_iff.
  split; intros [r [H1 H2]]; exists r; auto.
Qed.

Lemma rows_of_date_In (d : Date) (df : list Obs.row) (r : Obs.row) :
  In r (rows_of_date d df) <-> In r df /\ Obs.date_observed r = Some d.
Proof.
  unfold rows_of_date. rewrite filter_In.
  destruct (Obs.date_observed r) as [d'|].
  - rewrite date_eqb_spec. intuition congruence.
  - intuition discriminate.
Qed.

(** The per-date table has one row per distinct date of the rows it is
    built from, in ascending date order, and each of its rows stands
    for at least one observation. *)
Theorem progress_table_in_date_order (df : list Obs.row) :
  ascending date_leb (map Progress.date_observed (progress_agg df))
  /\ NoDup (map Progress.date_observed (progress_agg df))
  /\ (forall d, In d (map Progress.date_observed (progress_agg df))
                <-> exists r, In r df /\ Obs.date_observed r = Some d)
  /\ (forall row, In row (progress_agg df) ->
                  rows_of_date (Progress.date_observed row) df <> []).
Proof.
  split; [|split; [|split]].
  - rewrite progress_agg_dates.
    apply sort_ascending; [apply date_leb_total|apply date_leb_trans].
  - rewrite progress_agg_dates. apply sort_NoDup, unique_NoDup, date_eqb_spec.
  - apply progress_agg_date_In.
  - intros row Hrow E.
    assert (Hd : In (Progress.date_observed row)
                    (map Progress.date_observed (progress_agg df)))
      by now apply in_map.
    apply progress_agg_date_In in Hd. destruct Hd as [r [Hr Hd]].
    assert (Hin : In r (rows_of_date (Progress.date_observed row) df))
      by now apply rows_of_date_In.
    rewrite E in Hin. destruct Hin.
Qed.

(** A chart is never empty, and each of its points is a date on which
    the crop of the first merged row with the selected plot id has an
    observation in the input. *)
Theorem chart_points_are_observation_dates {Geometry}
        (merged : list (Merged.row Geometry)) (raw : list Obs.row)
        (selected_plot : string) (table : list Progress.row) :
  check_progress merged (monitoring_df raw) selected_plot = Chart table ->
  table <> []
  /\ exists m,
      first_plot_row merged selected_plot = Some m
      /\ forall row, In row table ->
                     exists r, In r raw /\ Obs.Crop_id r = Merged.id m
                               /\ Obs.date_observed r = Some (Progress.date_observed row).
Proof.
  rewrite check_progress_first_match.
  destruct (first_plot_row merged selected_plot) as [m|]; [|discriminate].
  destruct (rows_of_crop (Merged.id m) (monitoring_df raw)) as [|r0 g] eqn:Eg;
    [discriminate|].
  intros E. injection E as <-. rewrite <- Eg. split.
  - intros En.
    assert (Hr0 : In r0 (rows_of_crop (Merged.id m) (monitoring_df raw)))
      by (rewrite Eg; now left).
    pose proof Hr0 as Hr0'. apply rows_of_crop_In in Hr0'. destruct Hr0' as [Hr0' _].
    apply monitoring_df_In in Hr0'. destruct Hr0' as [_ Hd].
    destruct (Obs.date_observed r0) as [d|] eqn:Ed; [|congruence].
    assert (Hin : In d (map Progress.date_observed
                          (progress_agg (rows_of_crop (Merged.id m) (monitoring_df raw)))))
      by (apply progress_agg_date_In; now exists r0).
    rewrite En in Hin. destruct Hin.
  - exists m. split; [reflexivity|]. intros row Hrow.
    assert (Hd : In (Progress.date_observed row)
                    (map Progress.date_observed
                         (progress_agg (rows_of_crop (Merged.id m) (monitoring_df raw)))))
      by now apply in_map.
    apply progress_agg_date_In in Hd. destruct Hd as [r [Hr Hd]].
    apply rows_of_crop_In in Hr. destruct Hr as [Hr Hk].
    apply monitoring_df_In in Hr. destruct Hr as [Hr _].
    exists r. auto.
Qed.


(** ** The further properties on the sample tables *)

Lemma aggregate_keys_are_the_observed_crops_witness :
  rows_of_crop (Agg.Crop_id agg1) (monitoring_df sample_raw) <> [].
Proof.
  apply (proj2 (proj2 (proj2 (aggregate_keys_are_the_observed_crops sample_raw))) agg1).
  vm_compute. left. reflexivity.
Defined.

Lemma each_dated_row_in_one_group_witness :
  exists a, In a (agg_monitoring (monitoring_df sample_raw))
            /\ In obs1 (rows_of_crop (Agg.Crop_id a) (monitoring_df sample_raw))
            /\ forall a', In a' (agg_monitoring (monitoring_df sample_raw)) ->
                          In obs1 (rows_of_crop (Agg.Crop_id a') (monitoring_df sample_raw)) ->
                          a' = a.
Proof.
  apply (each_dated_row_in_one_group sample_raw obs1).
  - left. reflexivity.
  - vm_compute. discriminate.
Defined.

Lemma last_observed_is_latest_date_witness :
  exists d,
    Agg.last_observed agg1 = Some d
    /\ (exists r, In r (rows_of_crop (Agg.Crop_id agg1) (monitoring_df sample_raw))
                  /\ Obs.date_observed r = Some d)
    /\ forall r d', In r (rows_of_crop (Agg.Crop_id agg1) (monitoring_df sample_raw)) ->
                    Obs.date_observed r = Some d' -> date_leb d' d = true.
Proof.
  apply (last_observed_is_latest_date sample_raw agg1).
  vm_compute. left. reflexivity.
Defined.

Lemma last_stage_is_last_non_null_witness :
  Agg.last_stage agg1 = Some "Flowering".
Proof.
  destruct (last_stage_is_last_non_null (monitoring_df sample_raw) agg1) as [_ [_ H]].
  - vm_compute. left. reflexivity.
  - destruct (H [obs1]
                (Obs.mk "1" (Some jan10) (Some 20%Q) (Some "Flowering") (Some "Good") None)
                []) as [Hs _].
    + vm_compute. reflexivity.
    + apply (Hs "Flowering"); [reflexivity|]. intros r' [].
Defined.


Lemma merged_row_depends_only_on_own_crop_witness :
  filter (fun m => String.eqb (Merged.id m) "1") (merged_gdf sample_planting sample_raw)
  = filter (fun m => String.eqb (Merged.id m) "1") (merged_gdf sample_planting crop1_raw).
Proof.
  apply (merged_row_depends_only_on_own_crop sample_planting sample_raw crop1_raw "1").
  vm_compute. reflexivity.
Defined.

Lemma map_marks_every_filtered_row_witness :
  map (fun mk : Q * Q * string => (Some (fst (fst mk)), Some (snd (fst mk))))
      [(1%Q, 36%Q, "<strong>Date Observed:</strong> 2024-01-10<br>");
       (3%Q, 38%Q, "<strong>Date Observed:</strong> 2024-01-05<br>");
       (5%Q, 40%Q, "<strong>Date Observed:</strong> N/A<br>")]
  = map (fun c => (y (point_centroid (Planting.geometry c)),
                   x (point_centroid (Planting.geometry c))))
        sample_planting.
Proof.
  apply (proj2 (proj2 (map_marks_every_filtered_row point_centroid
                         sample_planting sample_raw))).
  vm_compute. reflexivity.
Defined.

Lemma date_str_is_faithful_witness :
  String.length (date_str jan05) = 10%nat
  /\ date_str jan05 <> "N/A"
  /\ (date_str jan05 = date_str jan10 -> jan05 = jan10).
Proof.
  apply (date_str_is_faithful jan05 jan10); unfold date_in_range; simpl; lia.
Defined.

Lemma merged_summary_columns_never_null_witness :
  Merged.avg_height merged99 <> None
  /\ Merged.last_stage merged99 <> None
  /\ Merged.last_crop_health merged99 <> None
  /\ (exists n, Merged.observations_count merged99 = Some n /\ 0 <= n
                /\ popup_observations merged99 = Some (NilZero.string_of_int (Z.to_int n)))
  /\ popup_observations (join_row (planting_of merged99) None) = None.
Proof.
  apply (merged_summary_columns_never_null sample_planting sample_raw merged99).
  vm_compute. right. right. left. reflexivity.
Defined.

Lemma popup_placeholder_iff_unobserved_witness :
  popup_date_observed merged99 = "N/A"
  <-> rows_of_crop (Merged.id merged99) (monitoring_df sample_raw) = [].
Proof.
  apply (popup_placeholder_iff_unobserved sample_planting sample_raw merged99).
  vm_compute. right. right. left. reflexivity.
Defined.

Lemma cascade_is_one_filter_witness :
  In merged1 sample_merged
  /\ ("Cereal" = "All" \/ Merged.Crop_Class merged1 = Some "Cereal")
  /\ ("All" = "All" \/ Merged.Crop_Varie merged1 = Some "All")
  /\ ("Flowering" = "All" \/ Merged.last_stage merged1 = Some "Flowering").
Proof.
  apply (proj2 (proj2 (proj2
           (cascade_is_one_filter sample_merged "Cereal" "All" "Flowering"))) merged1).
  vm_compute. left. reflexivity.
Defined.

Lemma offered_choices_keep_a_row_witness :
  filter_crop_class "Cereal" sample_merged <> []
  /\ filter_crop_variety "Maize" (filter_crop_class "Cereal" sample_merged) <> []
  /\ filtered_gdf sample_merged "Cereal" "Maize" "Flowering" <> [].
Proof.
  destruct (offered_choices_keep_a_row sample_merged "Cereal" "Maize" "Flowering")
    as [Hc [Hv Hs]].
  split; [|split].
  - apply Hc. vm_compute. left. reflexivity.
  - apply Hv. vm_compute. left. reflexivity.
  - apply Hs. vm_compute. left. reflexivity.
Defined.

Lemma every_row_has_a_stage_choice_witness :
  exists stage,
    Merged.last_stage merged2 = Some stage
    /\ In stage (stages (filter_crop_variety "All"
                           (filter_crop_class "Cereal"
                              (merged_gdf sample_planting sample_raw))))
    /\ In merged2 (filtered_gdf (merged_gdf sample_planting sample_raw)
                                "Cereal" "All" stage).
Proof.
  apply (every_row_has_a_stage_choice sample_planting sample_raw "Cereal" "All" merged2).
  vm_compute. right. left. reflexivity.
Defined.


Lemma progress_page_uses_first_matching_plot_witness :
  check_progress sample_merged (monitoring_df sample_raw) "R1" <> RaisesIndexError.
Proof.
  apply (proj1 (proj2 (progress_page_uses_first_matching_plot
                         sample_merged (monitoring_df sample_raw) "R1"))).
  vm_compute. left. reflexivity.
Defined.

Lemma progress_warning_iff_popup_placeholder_witness :
  check_progress (merged_gdf sample_planting sample_raw) (monitoring_df sample_raw) "R3"
  = Warning "No monitoring data available for this Plot ID."
  <-> popup_date_observed merged99 = "N/A".
Proof.
  apply (progress_warning_iff_popup_placeholder sample_planting sample_raw "R3" merged99).
  vm_compute. reflexivity.
Defined.

Lemma progress_table_in_date_order_witness :
  rows_of_date (Progress.date_observed tie_day) tie_rows <> [].
Proof.
  apply (proj2 (proj2 (proj2 (progress_table_in_date_order tie_rows))) tie_day).
  vm_compute. left. reflexivity.
Defined.

Lemma chart_points_are_observation_dates_witness :
  chart_R1 <> []
  /\ exists m,
      first_plot_row sample_merged "R1" = Some m
      /\ forall row, In row chart_R1 ->
                     exists r, In r sample_raw /\ Obs.Crop_id r = Merged.id m
                               /\ Obs.date_observed r = Some (Progress.date_observed row).
Proof.
  apply (chart_points_are_observation_dates sample_merged sample_raw "R1" chart_R1).
  vm_compute. reflexivity.
Defined.

